(** * ApiJsonGenerator: the declaration tree to *.api.json visitor

    A shallow embedding of
    [libraries/api-extractor/src/generators/ApiJsonGenerator.ts].

    JavaScript objects are association lists in insertion order; an
    assignment [o[k] = v] overwrites in place when [k] is already a key and
    appends otherwise, so a container that starts empty has every key once.
    (Keys that are array indices, which JavaScript enumerates first, are
    not modelled: the keys written here are field names and declared
    names.)  The visitor threads the container it writes into, the static
    [_methodCounter], and the visited item itself, because [visitApiParam]
    writes through [documentation.parameters] of the declaration tree. *)

From stdpp Require Import base strings list gmap pretty.

Local Open Scope string_scope.
Local Open Scope list_scope.

(** ** JSON values *)

Unset Elimination Schemes.

Inductive Json : Type :=
| JUndefined
| JString (s : string)
| JBoolean (b : bool)
| JArray (elements : list Json)
| JObject (properties : list (string * Json)).

Set Elimination Schemes.

Abbreviation Obj := (list (string * Json)).

(** [o[k]] *)
Fixpoint obj_get (o : Obj) (k : string) : option Json :=
  match o with
  | [] => None
  | (k', v) :: rest => if String.eqb k' k then Some v else obj_get rest k
  end.

(** [o[k] = v] *)
Fixpoint obj_set (o : Obj) (k : string) (v : Json) : Obj :=
  match o with
  | [] => [(k, v)]
  | (k', v') :: rest =>
      if String.eqb k' k then (k', v) :: rest else (k', v') :: obj_set rest k v
  end.

Definition obj_keys (o : Obj) : list string := map fst o.

(** [x || []] on an optional array of doc elements *)
Definition orEmptyArray (x : option (list Json)) : Json :=
  match x with Some l => JArray l | None => JArray [] end.

(** [x || ''] on an optional string; the empty string is falsy as well *)
Definition orEmptyString (x : option string) : Json :=
  match x with Some s => JString s | None => JString "" end.

(** [!!x] on an optional boolean *)
Definition toBoolean (x : option bool) : bool :=
  match x with Some b => b | None => false end.

(** ** The declaration model read by the generator *)

Module ReleaseTag.
Inductive t := None | Internal | Alpha | Beta | Public.
Definition eqb (a b : t) : bool :=
  match a, b with
  | None, None | Internal, Internal | Alpha, Alpha
  | Beta, Beta | Public, Public => true
  | _, _ => false
  end.
End ReleaseTag.

Module AstItemKind.
Inductive t :=
| Class | Constructor | Enum | EnumValue | Function | Interface
| Method | Namespace | Package | Param | Property | ModuleVariable.
End AstItemKind.

Module AccessModifier.
Inductive t := Private | Protected | Public.
(** The number of a member: the enum has no initializers, so its members
    count from 0 and [Private] is the one that a condition takes as
    false. *)
Definition value (m : t) : Z :=
  match m with
  | Private => 0
  | Protected => 1
  | Public => 2
  end.
(** [AccessModifier[m].toLowerCase()] *)
Definition lowerName (m : t) : string :=
  match m with
  | Private => "private"
  | Protected => "protected"
  | Public => "public"
  end.
End AccessModifier.

(** [ts.Declaration]: the syntax kind and the tokens of the declaration in
    source order.  A token is identified by its position, so the first and
    the last token are the same node exactly when there is one token. *)
Module Declaration.
Record t := { kind : N; tokens : list string }.

Definition getFirstToken (d : t) : option (nat * string) :=
  match tokens d with
  | [] => None
  | tok :: _ => Some (0, tok)
  end.

Definition getLastToken (d : t) : option (nat * string) :=
  match last (tokens d) with
  | Some tok => Some (pred (length (tokens d)), tok)
  | None => None
  end.

Definition getText (token : nat * string) : string := token.2.

Definition sameNode (a b : option (nat * string)) : bool :=
  match a, b with
  | Some x, Some y => Nat.eqb x.1 y.1
  | Datatypes.None, Datatypes.None => true
  | _, _ => false
  end.
End Declaration.

Module SyntaxKind.
(** The numbers differ between versions of the compiler; the generator
    only compares a kind with [SetAccessor] and prints it. *)
Definition SetAccessor : N := 151.
Definition GetAccessor : N := 150.
Definition EnumMember : N := 255.
End SyntaxKind.

Module AstParameter.
Record t := {
  name : string;
  supportedName : bool;
  isOptional : bool;
  isSpread : bool;
  type : string
}.
End AstParameter.

Record ApiDocumentation := {
  releaseTag : ReleaseTag.t;
  summary : option (list Json);
  remarks : option (list Json);
  deprecatedMessage : option (list Json);
  parameters : list (string * Obj);
  returnsMessage : Json
}.

(** Fields every [AstItem] has. *)
Record AstItemBase := {
  name : string;
  kind : AstItemKind.t;
  supportedName : bool;
  documentation : ApiDocumentation
}.

(** Fields of [AstMember] and its subclasses. *)
Record AstMemberBase := {
  accessModifier : option AccessModifier.t;
  isOptional : option bool;
  isStatic : option bool
}.

(** The class of an item is its constructor; [memberItems] is the list that
    [getSortedMemberItems()] returns. *)
Unset Elimination Schemes.

Inductive AstItem : Type :=
| AstPackage (base : AstItemBase) (memberItems : list AstItem)
| AstNamespace (base : AstItemBase) (memberItems : list AstItem)
| AstStructuredType (base : AstItemBase)
    (extends implements : option string)
    (typeParameters : option (list string))
    (memberItems : list AstItem)
| AstEnum (base : AstItemBase) (memberItems : list AstItem)
| AstEnumValue (base : AstItemBase) (declaration : option Declaration.t)
| AstFunction (base : AstItemBase)
    (params : list AstParameter.t) (returnType : string)
| AstModuleVariable (base : AstItemBase) (type value : string)
| AstMethod (base : AstItemBase) (member : AstMemberBase)
    (params : list AstParameter.t) (returnType : string)
    (declarationLine : string)
| AstProperty (base : AstItemBase) (member : AstMemberBase)
    (type : string) (isReadOnly : option bool)
    (declaration : Declaration.t)
| AstMember (base : AstItemBase) (member : AstMemberBase)
    (declaration : Declaration.t).

Set Elimination Schemes.

Definition itemBase (astItem : AstItem) : AstItemBase :=
  match astItem with
  | AstPackage b _ | AstNamespace b _ | AstStructuredType b _ _ _ _
  | AstEnum b _ | AstEnumValue b _ | AstFunction b _ _
  | AstModuleVariable b _ _ | AstMethod b _ _ _ _
  | AstProperty b _ _ _ _ | AstMember b _ _ => b
  end.

Definition withParameters (b : AstItemBase) (ps : list (string * Obj))
  : AstItemBase :=
  {| name := name b; kind := kind b; supportedName := supportedName b;
     documentation :=
       {| releaseTag := releaseTag (documentation b);
          summary := summary (documentation b);
          remarks := remarks (documentation b);
          deprecatedMessage := deprecatedMessage (documentation b);
          parameters := ps;
          returnsMessage := returnsMessage (documentation b) |} |}.

(** ** The generator *)

(** What a visit leaves behind: the visited item (its
    [documentation.parameters] may have been written to), the container, and
    the static [_methodCounter]. *)
Definition Visited (A : Type) : Type := (A * Obj * Z)%type.

Definition _MEMBERS_KEY : string := "members".
Definition _EXPORTS_KEY : string := "exports".

(** [for (const astItem of items) { this.visit(astItem, refObject); }] *)
Fixpoint visitEach (visit : AstItem -> Obj -> Z -> Visited AstItem)
    (items : list AstItem) (refObject : Obj) (methodCounter : Z)
  : Visited (list AstItem) :=
  match items with
  | [] => ([], refObject, methodCounter)
  | astItem :: rest =>
      let '(astItem', refObject1, counter1) :=
        visit astItem refObject methodCounter in
      let '(rest', refObject2, counter2) :=
        visitEach visit rest refObject1 counter1 in
      (astItem' :: rest', refObject2, counter2)
  end.

Definition setParamFields (apiParam : AstParameter.t) (o : Obj) : Obj :=
  obj_set
    (obj_set
       (obj_set o "isOptional" (JBoolean (AstParameter.isOptional apiParam)))
       "isSpread" (JBoolean (AstParameter.isSpread apiParam)))
    "type" (JString (AstParameter.type apiParam)).

(** [refObject] is [documentation.parameters[param.name]], [None] when that
    is undefined; the result is the object after the call. *)
Definition visitApiParam (apiParam : AstParameter.t) (refObject : option Obj)
  : option Obj :=
  if negb (AstParameter.supportedName apiParam) then refObject
  else
    match refObject with
    | Some o => Some (setParamFields apiParam o)
    | None => None
    end.

(** The object stored under [k] is shared with the caller of [f]: what [f]
    writes to it shows in [parameters]. When no entry has key [k] the
    argument of [f] is undefined and nothing can change. *)
Definition throughEntry (k : string) (f : option Obj -> option Obj)
    (parameters : list (string * Obj)) : list (string * Obj) :=
  map (fun e : string * Obj =>
         if String.eqb e.1 k
         then (e.1, match f (Some e.2) with Some o => o | None => e.2 end)
         else e)
      parameters.

(** [for (const param of params)
      { this.visitApiParam(param, documentation.parameters[param.name]); }] *)
Fixpoint visitApiParams (params : list AstParameter.t)
    (parameters : list (string * Obj)) : list (string * Obj) :=
  match params with
  | [] => parameters
  | param :: rest =>
      visitApiParams rest
        (throughEntry (AstParameter.name param) (visitApiParam param)
           parameters)
  end.

Definition parametersJson (parameters : list (string * Obj)) : Json :=
  JObject (map (fun e : string * Obj => (e.1, JObject e.2)) parameters).

Definition isBetaJson (b : AstItemBase) : Json :=
  JBoolean (ReleaseTag.eqb (releaseTag (documentation b)) ReleaseTag.Beta).

Definition optArrayJson (x : option (list Json)) : Json :=
  match x with Some l => JArray l | None => JUndefined end.

Section Generator.

(** [ApiJsonFile.convertKindToJson], declared in [jsonItem/ApiJsonFile]:
    the discriminator string published for each item kind. *)
Variable convertKindToJson : AstItemKind.t -> string.

(** The virtual [this.visit] that the projectors call on their members. *)
Variable this_visit : AstItem -> Obj -> Z -> Visited AstItem.

Definition visitAstStructuredType (base : AstItemBase)
    (extends implements : option string)
    (typeParameters : option (list string)) (memberItems : list AstItem)
    (refObject : Obj) (methodCounter : Z) : Visited AstItem :=
  if negb (supportedName base) then
    (AstStructuredType base extends implements typeParameters memberItems,
     refObject, methodCounter)
  else
    let kind : string :=
      match kind base with
      | AstItemKind.Class => convertKindToJson AstItemKind.Class
      | AstItemKind.Interface => convertKindToJson AstItemKind.Interface
      | _ => ""
      end in
    let structureNode : Obj :=
      [ ("kind", JString kind);
        ("extends", orEmptyString extends);
        ("implements", orEmptyString implements);
        ("typeParameters",
          match typeParameters with
          | Some l => JArray (map JString l)
          | None => JArray []
          end);
        ("deprecatedMessage",
          orEmptyArray (deprecatedMessage (documentation base)));
        ("summary", orEmptyArray (summary (documentation base)));
        ("remarks", orEmptyArray (remarks (documentation base)));
        ("isBeta", isBetaJson base) ] in
    (* [refObject[name] = structureNode] keeps a reference: the members
       key added to [structureNode] below is part of the entry.
       [_methodCounter = 0]. *)
    match memberItems with
    | [] =>
        (AstStructuredType base extends implements typeParameters [],
         obj_set refObject (name base) (JObject structureNode), 0%Z)
    | _ :: _ =>
        let '(members', membersNode, counter') :=
          visitEach this_visit memberItems [] 0%Z in
        (AstStructuredType base extends implements typeParameters members',
         obj_set refObject (name base)
           (JObject
              (obj_set structureNode _MEMBERS_KEY (JObject membersNode))),
         counter')
    end.

Definition visitAstEnum (base : AstItemBase) (memberItems : list AstItem)
    (refObject : Obj) (methodCounter : Z) : Visited AstItem :=
  if negb (supportedName base) then
    (AstEnum base memberItems, refObject, methodCounter)
  else
    (* [valuesNode] is referenced from [enumNode], itself referenced from
       [refObject]: the values written by the loop are part of the entry. *)
    let '(members', valuesNode, counter') :=
      visitEach this_visit memberItems [] methodCounter in
    let enumNode : Obj :=
      [ ("kind", JString (convertKindToJson (kind base)));
        ("values", JObject valuesNode);
        ("deprecatedMessage",
          orEmptyArray (deprecatedMessage (documentation base)));
        ("summary", orEmptyArray (summary (documentation base)));
        ("remarks", orEmptyArray (remarks (documentation base)));
        ("isBeta", isBetaJson base) ] in
    (AstEnum base members',
     obj_set refObject (name base) (JObject enumNode), counter').

Definition enumValueText (declaration : option Declaration.t) : string :=
  let firstToken :=
    match declaration with
    | Some d => Declaration.getFirstToken d
    | None => None
    end in
  let lastToken :=
    match declaration with
    | Some d => Declaration.getLastToken d
    | None => None
    end in
  match lastToken with
  | Some tok =>
      if negb (Declaration.sameNode lastToken firstToken)
      then Declaration.getText tok
      else ""
  | None => ""
  end.

Definition visitAstEnumValue (base : AstItemBase)
    (declaration : option Declaration.t)
    (refObject : Obj) (methodCounter : Z) : Visited AstItem :=
  if negb (supportedName base) then
    (AstEnumValue base declaration, refObject, methodCounter)
  else
    let value : string := enumValueText declaration in
    (AstEnumValue base declaration,
     obj_set refObject (name base)
       (JObject
          [ ("kind", JString (convertKindToJson (kind base)));
            ("value", JString value);
            ("deprecatedMessage",
              orEmptyArray (deprecatedMessage (documentation base)));
            ("summary", orEmptyArray (summary (documentation base)));
            ("remarks", orEmptyArray (remarks (documentation base)));
            ("isBeta", isBetaJson base) ]),
     methodCounter).

Definition visitAstFunction (base : AstItemBase)
    (params : list AstParameter.t) (returnType : string)
    (refObject : Obj) (methodCounter : Z) : Visited AstItem :=
  if negb (supportedName base) then
    (AstFunction base params returnType, refObject, methodCounter)
  else
    let parameters' :=
      visitApiParams params (parameters (documentation base)) in
    let returnValueNode : Obj :=
      [ ("type", JString returnType);
        ("description", returnsMessage (documentation base)) ] in
    let newNode : Obj :=
      [ ("kind", JString (convertKindToJson (kind base)));
        ("returnValue", JObject returnValueNode);
        ("parameters", parametersJson parameters');
        ("deprecatedMessage",
          orEmptyArray (deprecatedMessage (documentation base)));
        ("summary", orEmptyArray (summary (documentation base)));
        ("remarks", orEmptyArray (remarks (documentation base)));
        ("isBeta", isBetaJson base) ] in
    (AstFunction (withParameters base parameters') params returnType,
     obj_set refObject (name base) (JObject newNode), methodCounter).

Definition visitAstPackage (base : AstItemBase)
    (memberItems : list AstItem)
    (refObject : Obj) (methodCounter : Z) : Visited AstItem :=
  let refObject1 :=
    obj_set refObject "kind" (JString (convertKindToJson (kind base))) in
  let refObject2 :=
    obj_set refObject1 "summary"
      (optArrayJson (summary (documentation base))) in
  let refObject3 :=
    obj_set refObject2 "remarks"
      (optArrayJson (remarks (documentation base))) in
  (* [refObject[_EXPORTS_KEY] = membersNode], filled by the loop *)
  let '(members', membersNode, counter') :=
    visitEach this_visit memberItems [] methodCounter in
  (AstPackage base members',
   obj_set refObject3 _EXPORTS_KEY (JObject membersNode), counter').

Definition visitAstNamespace (base : AstItemBase)
    (memberItems : list AstItem)
    (refObject : Obj) (methodCounter : Z) : Visited AstItem :=
  if negb (supportedName base) then
    (AstNamespace base memberItems, refObject, methodCounter)
  else
    let '(members', membersNode, counter') :=
      visitEach this_visit memberItems [] methodCounter in
    let newNode : Obj :=
      [ ("kind", JString (convertKindToJson (kind base)));
        ("deprecatedMessage",
          orEmptyArray (deprecatedMessage (documentation base)));
        ("summary", orEmptyArray (summary (documentation base)));
        ("remarks", orEmptyArray (remarks (documentation base)));
        ("isBeta", isBetaJson base);
        ("exports", JObject membersNode) ] in
    (AstNamespace base members',
     obj_set refObject (name base) (JObject newNode), counter').

Definition visitAstMember (base : AstItemBase) (member : AstMemberBase)
    (declaration : Declaration.t)
    (refObject : Obj) (methodCounter : Z) : Visited AstItem :=
  if negb (supportedName base) then
    (AstMember base member declaration, refObject, methodCounter)
  else
    (AstMember base member declaration,
     obj_set refObject (name base)
       (JString ("apiMember-" +:+ pretty (Declaration.kind declaration))),
     methodCounter).

Definition visitAstProperty (base : AstItemBase) (member : AstMemberBase)
    (type : string) (isReadOnly : option bool)
    (declaration : Declaration.t)
    (refObject : Obj) (methodCounter : Z) : Visited AstItem :=
  if negb (supportedName base) then
    (AstProperty base member type isReadOnly declaration,
     refObject, methodCounter)
  else if N.eqb (Declaration.kind declaration) SyntaxKind.SetAccessor then
    (AstProperty base member type isReadOnly declaration,
     refObject, methodCounter)
  else
    let newNode : Obj :=
      [ ("kind", JString (convertKindToJson (kind base)));
        ("isOptional", JBoolean (toBoolean (isOptional member)));
        ("isReadOnly", JBoolean (toBoolean isReadOnly));
        ("isStatic", JBoolean (toBoolean (isStatic member)));
        ("type", JString type);
        ("deprecatedMessage",
          orEmptyArray (deprecatedMessage (documentation base)));
        ("summary", orEmptyArray (summary (documentation base)));
        ("remarks", orEmptyArray (remarks (documentation base)));
        ("isBeta", isBetaJson base) ] in
    (AstProperty base member type isReadOnly declaration,
     obj_set refObject (name base) (JObject newNode), methodCounter).

Definition visitAstModuleVariable (base : AstItemBase)
    (type value : string)
    (refObject : Obj) (methodCounter : Z) : Visited AstItem :=
  let newNode : Obj :=
    [ ("kind", JString (convertKindToJson (kind base)));
      ("type", JString type);
      ("value", JString value);
      ("deprecatedMessage",
        orEmptyArray (deprecatedMessage (documentation base)));
      ("summary", orEmptyArray (summary (documentation base)));
      ("remarks", orEmptyArray (remarks (documentation base)));
      ("isBeta", isBetaJson base) ] in
  (AstModuleVariable base type value,
   obj_set refObject (name base) (JObject newNode), methodCounter).

Definition visitAstMethod (base : AstItemBase) (member : AstMemberBase)
    (params : list AstParameter.t) (returnType declarationLine : string)
    (refObject : Obj) (methodCounter : Z) : Visited AstItem :=
  if negb (supportedName base) then
    (AstMethod base member params returnType declarationLine,
     refObject, methodCounter)
  else
    let parameters' :=
      visitApiParams params (parameters (documentation base)) in
    let newNode : Obj :=
      if String.eqb (name base) "__constructor" then
        [ ("kind", JString (convertKindToJson AstItemKind.Constructor));
          ("signature", JString declarationLine);
          ("parameters", parametersJson parameters');
          ("deprecatedMessage",
            orEmptyArray (deprecatedMessage (documentation base)));
          ("summary", orEmptyArray (summary (documentation base)));
          ("remarks", orEmptyArray (remarks (documentation base))) ]
      else
        let returnValueNode : Obj :=
          [ ("type", JString returnType);
            ("description", returnsMessage (documentation base)) ] in
        [ ("kind", JString (convertKindToJson (kind base)));
          ("signature", JString declarationLine);
          ("accessModifier",
            match accessModifier member with
            | Some m =>
                if Z.eqb (AccessModifier.value m) 0 then JString ""
                else JString (AccessModifier.lowerName m)
            | None => JString ""
            end);
          ("isOptional", JBoolean (toBoolean (isOptional member)));
          ("isStatic", JBoolean (toBoolean (isStatic member)));
          ("returnValue", JObject returnValueNode);
          ("parameters", parametersJson parameters');
          ("deprecatedMessage",
            orEmptyArray (deprecatedMessage (documentation base)));
          ("summary", orEmptyArray (summary (documentation base)));
          ("remarks", orEmptyArray (remarks (documentation base)));
          ("isBeta", isBetaJson base) ] in
    (AstMethod (withParameters base parameters') member params returnType
       declarationLine,
     obj_set refObject (name base) (JObject newNode), methodCounter).

(** Modelled from the spec: [AstItemVisitor.visit], the base-class
    dispatcher ([generators/AstItemVisitor] is not part of the sources).
    It routes an item to the projector of its class; the classes form a
    closed set, and a plain class member goes to [visitAstMember]. *)
Definition AstItemVisitor_visit (astItem : AstItem)
    (refObject : Obj) (methodCounter : Z) : Visited AstItem :=
  match astItem with
  | AstStructuredType base extends implements typeParameters memberItems =>
      visitAstStructuredType base extends implements typeParameters
        memberItems refObject methodCounter
  | AstEnum base memberItems =>
      visitAstEnum base memberItems refObject methodCounter
  | AstEnumValue base declaration =>
      visitAstEnumValue base declaration refObject methodCounter
  | AstFunction base params returnType =>
      visitAstFunction base params returnType refObject methodCounter
  | AstPackage base memberItems =>
      visitAstPackage base memberItems refObject methodCounter
  | AstProperty base member type isReadOnly declaration =>
      visitAstProperty base member type isReadOnly declaration
        refObject methodCounter
  | AstMethod base member params returnType declarationLine =>
      visitAstMethod base member params returnType declarationLine
        refObject methodCounter
  | AstNamespace base memberItems =>
      visitAstNamespace base memberItems refObject methodCounter
  | AstModuleVariable base type value =>
      visitAstModuleVariable base type value refObject methodCounter
  | AstMember base member declaration =>
      visitAstMember base member declaration refObject methodCounter
  end.

End Generator.

(** [ApiJsonGenerator.visit]: the override that filters on the release tag
    before dispatching. *)
Fixpoint visit (convertKindToJson : AstItemKind.t -> string)
    (astItem : AstItem) (refObject : Obj) (methodCounter : Z)
  {struct astItem} : Visited AstItem :=
  match releaseTag (documentation (itemBase astItem)) with
  | ReleaseTag.None | ReleaseTag.Beta | ReleaseTag.Public =>
      AstItemVisitor_visit convertKindToJson (visit convertKindToJson)
        astItem refObject methodCounter
  | _ => (astItem, refObject, methodCounter)
  end.

(** The release tags that [visit] lets through. *)
Definition admitted (tag : ReleaseTag.t) : bool :=
  match tag with
  | ReleaseTag.None | ReleaseTag.Beta | ReleaseTag.Public => true
  | ReleaseTag.Alpha | ReleaseTag.Internal => false
  end.

Definition itemAdmitted (astItem : AstItem) : bool :=
  admitted (releaseTag (documentation (itemBase astItem))).

(** No package below the root. *)
Fixpoint packageFree (astItem : AstItem) : bool :=
  match astItem with
  | AstPackage _ _ => false
  | AstNamespace _ ms | AstStructuredType _ _ _ _ ms | AstEnum _ ms =>
      forallb packageFree ms
  | _ => true
  end.

Definition isPackage (astItem : AstItem) : bool :=
  match astItem with AstPackage _ _ => true | _ => false end.

Definition isModuleVariable (astItem : AstItem) : bool :=
  match astItem with AstModuleVariable _ _ _ => true | _ => false end.

(** ** Shape of the emitted document *)



Definition hasField (o : Obj) (k : string) : bool :=
  match obj_get o k with Some _ => true | None => false end.

Definition countKey (o : Obj) (k : string) : nat :=
  length (List.filter (String.eqb k) (obj_keys o)).

(** ** Enum member declarations *)

(** The declaration of an enum member: its name, then [=] and the tokens of
    the initializer when it has one. *)
Definition enumMemberDeclaration (memberName : string)
    (initializer : option (list string)) : Declaration.t :=
  {| Declaration.kind := SyntaxKind.EnumMember;
     Declaration.tokens :=
       memberName ::
       match initializer with
       | Some toks => "=" :: toks
       | None => []
       end |}.

(** The source text of an initializer whose tokens are written without
    spaces between them. *)
Definition initializerText (toks : list string) : string :=
  foldr String.append "" toks.

(** ** Writing the report *)

Record IJsonSchemaErrorInfo := { details : string }.

Inductive Completion :=
| Returns
| Throws (message : string).

Record Extractor := { package : AstItem }.

(** The instance state of an [ApiJsonGenerator]. *)
Record ApiJsonGenerator := { jsonOutput : Obj }.

(** [new ApiJsonGenerator()] *)
Definition newApiJsonGenerator : ApiJsonGenerator := {| jsonOutput := [] |}.

Section WriteJsonFile.

Variable convertKindToJson : AstItemKind.t -> string.

(** The services of [os], [path] and [@microsoft/node-core-library]. *)
Variable JsonSchema : Type.
Variable os_EOL : string.
Variable __dirname : string.
Variable path_join : string -> string -> string.
Variable path_basename : string -> string.
(** [JsonSchema.fromFile] *)
Variable JsonSchema_fromFile : string -> JsonSchema.
(** The text that [JsonFile.save] writes for an object. *)
Variable JsonFile_stringify : Obj -> string.
(** What [validateObjectWithCallback] passes to its callback, [None] when
    the object conforms and the callback is not called. *)
Variable JsonSchema_validate : JsonSchema -> Obj -> option IJsonSchemaErrorInfo.

(** What lives outside the generator instance: the files on disk, what
    [console.log] printed, and the static fields of the class. *)
Record Process := {
  files : gmap string string;
  console : list string;
  _methodCounter : Z;
  _jsonSchema : option JsonSchema
}.

(** [static get jsonSchema()] *)
Definition jsonSchema (w : Process) : JsonSchema * Process :=
  match _jsonSchema w with
  | Some schema => (schema, w)
  | None =>
      let schema :=
        JsonSchema_fromFile
          (path_join __dirname "../jsonItem/api-json.schema.json") in
      (schema,
       {| files := files w; console := console w;
          _methodCounter := _methodCounter w;
          _jsonSchema := Some schema |})
  end.

(** [JsonFile.save(jsonObject, filename)] *)
Definition JsonFile_save (jsonObject : Obj) (filename : string)
    (w : Process) : Process :=
  {| files := <[filename := JsonFile_stringify jsonObject]> (files w);
     console := console w;
     _methodCounter := _methodCounter w;
     _jsonSchema := _jsonSchema w |}.

(** [console.log(line)] *)
Definition console_log (line : string) (w : Process) : Process :=
  {| files := files w; console := console w ++ [line];
     _methodCounter := _methodCounter w;
     _jsonSchema := _jsonSchema w |}.

Definition schemaErrorMessage (reportFilename : string)
    (errorInfo : IJsonSchemaErrorInfo) : string :=
  path_basename reportFilename
  +:+ " does not conform to the expected schema -- please report this API Extractor bug:"
  +:+ os_EOL +:+ details errorInfo.

Record WriteResult := {
  completion : Completion;
  generator : ApiJsonGenerator;
  extractor : Extractor;
  process : Process
}.

Definition writeJsonFile (this : ApiJsonGenerator)
    (reportFilename : string) (extractor : Extractor) (w : Process)
  : WriteResult :=
  let '(package', jsonOutput', counter') :=
    visit convertKindToJson (package extractor) (jsonOutput this)
      (_methodCounter w) in
  let w1 :=
    {| files := files w; console := console w;
       _methodCounter := counter'; _jsonSchema := _jsonSchema w |} in
  (* Write the output before validating the schema *)
  let w2 := JsonFile_save jsonOutput' reportFilename w1 in
  let '(schema, w3) := jsonSchema w2 in
  match JsonSchema_validate schema jsonOutput' with
  | None =>
      {| completion := Returns;
         generator := {| jsonOutput := jsonOutput' |};
         extractor := {| package := package' |};
         process := w3 |}
  | Some errorInfo =>
      let errorMessage := schemaErrorMessage reportFilename errorInfo in
      let w4 :=
        console_log
          (os_EOL +:+ "ERROR: " +:+ errorMessage +:+ os_EOL +:+ os_EOL)
          w3 in
      {| completion := Throws errorMessage;
         generator := {| jsonOutput := jsonOutput' |};
         extractor := {| package := package' |};
         process := w4 |}
  end.

(** The schema that a call of [writeJsonFile] validates against. *)
Definition schemaInUse (w : Process) : JsonSchema :=
  match _jsonSchema w with
  | Some schema => schema
  | None =>
      JsonSchema_fromFile
        (path_join __dirname "../jsonItem/api-json.schema.json")
  end.

End WriteJsonFile.

Arguments files {JsonSchema} _.
Arguments console {JsonSchema} _.
Arguments _methodCounter {JsonSchema} _.
Arguments _jsonSchema {JsonSchema} _.
Arguments completion {JsonSchema} _.
Arguments generator {JsonSchema} _.
Arguments extractor {JsonSchema} _.
Arguments process {JsonSchema} _.

(** ** Reading a visit's result *)

Definition visitedItem {A : Type} (r : Visited A) : A := r.1.1.
Definition visitedObject {A : Type} (r : Visited A) : Obj := r.1.2.
Definition visitedCounter {A : Type} (r : Visited A) : Z := r.2.

(** ** Redaction *)

(** What stands in for a rejected item: an internal leaf without a name. *)
Definition rejectedStub : AstItem :=
  AstMember
    {| name := ""; kind := AstItemKind.Property; supportedName := false;
       documentation :=
         {| releaseTag := ReleaseTag.Internal; summary := None;
            remarks := None; deprecatedMessage := None; parameters := [];
            returnsMessage := JUndefined |} |}
    {| accessModifier := None; isOptional := None; isStatic := None |}
    {| Declaration.kind := 0; Declaration.tokens := [] |}.

(** The tree in which every item that [visit] rejects is replaced, with all
    it contains, by [rejectedStub]. *)
Fixpoint redact (astItem : AstItem) : AstItem :=
  if itemAdmitted astItem then
    match astItem with
    | AstPackage b ms => AstPackage b (map redact ms)
    | AstNamespace b ms => AstNamespace b (map redact ms)
    | AstStructuredType b e i tp ms =>
        AstStructuredType b e i tp (map redact ms)
    | AstEnum b ms => AstEnum b (map redact ms)
    | _ => astItem
    end
  else rejectedStub.

(** ** Induction over declaration trees *)

Section AstItemInduction.

Variable P : AstItem -> Prop.

Hypothesis package_case :
  forall b ms, Forall P ms -> P (AstPackage b ms).
Hypothesis namespace_case :
  forall b ms, Forall P ms -> P (AstNamespace b ms).
Hypothesis structured_case :
  forall b e i tp ms, Forall P ms -> P (AstStructuredType b e i tp ms).
Hypothesis enum_case :
  forall b ms, Forall P ms -> P (AstEnum b ms).
Hypothesis enum_value_case : forall b d, P (AstEnumValue b d).
Hypothesis function_case : forall b ps rt, P (AstFunction b ps rt).
Hypothesis module_variable_case : forall b t v, P (AstModuleVariable b t v).
Hypothesis method_case : forall b m ps rt dl, P (AstMethod b m ps rt dl).
Hypothesis property_case : forall b m t ro d, P (AstProperty b m t ro d).
Hypothesis member_case : forall b m d, P (AstMember b m d).

Fixpoint AstItem_tree_ind (astItem : AstItem) : P astItem :=
  let members :=
    fix members (ms : list AstItem) : Forall P ms :=
      match ms with
      | [] => @List.Forall_nil _ P
      | m :: rest =>
          @List.Forall_cons _ P m rest (AstItem_tree_ind m) (members rest)
      end in
  match astItem with
  | AstPackage b ms => package_case b ms (members ms)
  | AstNamespace b ms => namespace_case b ms (members ms)
  | AstStructuredType b e i tp ms => structured_case b e i tp ms (members ms)
  | AstEnum b ms => enum_case b ms (members ms)
  | AstEnumValue b d => enum_value_case b d
  | AstFunction b ps rt => function_case b ps rt
  | AstModuleVariable b t v => module_variable_case b t v
  | AstMethod b m ps rt dl => method_case b m ps rt dl
  | AstProperty b m t ro d => property_case b m t ro d
  | AstMember b m d => member_case b m d
  end.

End AstItemInduction.

(** The counter and the container that a visit leaves. *)
Definition visitedState {A : Type} (r : Visited A) : Obj * Z := (r.1.2, r.2).

(** ** Sample declarations *)

(** A discriminator table for running the generator on concrete trees. *)
Definition sampleKinds (k : AstItemKind.t) : string :=
  match k with
  | AstItemKind.Class => "class"
  | AstItemKind.Constructor => "constructor"
  | AstItemKind.Enum => "enum"
  | AstItemKind.EnumValue => "enum value"
  | AstItemKind.Function => "function"
  | AstItemKind.Interface => "interface"
  | AstItemKind.Method => "method"
  | AstItemKind.Namespace => "namespace"
  | AstItemKind.Package => "package"
  | AstItemKind.Param => "parameter"
  | AstItemKind.Property => "property"
  | AstItemKind.ModuleVariable => "module variable"
  end.

Definition sampleDoc (tag : ReleaseTag.t) (ps : list (string * Obj))
  : ApiDocumentation :=
  {| releaseTag := tag; summary := None; remarks := None;
     deprecatedMessage := None; parameters := ps;
     returnsMessage := JArray [] |}.

Definition sampleBase (n : string) (k : AstItemKind.t) (tag : ReleaseTag.t)
  : AstItemBase :=
  {| name := n; kind := k; supportedName := true;
     documentation := sampleDoc tag [] |}.

Definition unsupportedBase (n : string) (k : AstItemKind.t)
    (tag : ReleaseTag.t) : AstItemBase :=
  {| name := n; kind := k; supportedName := false;
     documentation := sampleDoc tag [] |}.

Definition publicMember : AstMemberBase :=
  {| accessModifier := Some AccessModifier.Public;
     isOptional := None; isStatic := None |}.

(** [render(x: number): string] *)
Definition renderMethod : AstItem :=
  AstMethod
    {| name := "render"; kind := AstItemKind.Method; supportedName := true;
       documentation :=
         sampleDoc ReleaseTag.Public [("x", [("name", JString "x")])] |}
    publicMember
    [ {| AstParameter.name := "x"; AstParameter.supportedName := true;
         AstParameter.isOptional := false; AstParameter.isSpread := false;
         AstParameter.type := "number" |} ]
    "string" "render(x: number): string;".

(** [/** @internal */ debug(): void] *)
Definition debugMethod : AstItem :=
  AstMethod (sampleBase "debug" AstItemKind.Method ReleaseTag.Internal)
    publicMember [] "void" "debug(): void;".

Definition constructorMethod : AstItem :=
  AstMethod (sampleBase "__constructor" AstItemKind.Method ReleaseTag.None)
    publicMember [] "" "constructor();".

(** A class member that is neither a method nor a property. *)
Definition indexSignature : AstItem :=
  AstMember (sampleBase "__index" AstItemKind.Property ReleaseTag.None)
    publicMember
    {| Declaration.kind := 153; Declaration.tokens := ["["; "key"; "]"] |}.

Definition widgetClass : AstItem :=
  AstStructuredType (sampleBase "Widget" AstItemKind.Class ReleaseTag.Public)
    None None None [debugMethod; indexSignature; renderMethod].

(** An internal class with a public method. *)
Definition hiddenClass : AstItem :=
  AstStructuredType (sampleBase "Hidden" AstItemKind.Class ReleaseTag.Internal)
    None None None [renderMethod].

(** [enum Sign { Minus = -1, Zero }] *)
Definition minusValue : AstItem :=
  AstEnumValue (sampleBase "Minus" AstItemKind.EnumValue ReleaseTag.None)
    (Some (enumMemberDeclaration "Minus" (Some ["-"; "1"]))).

Definition zeroValue : AstItem :=
  AstEnumValue (sampleBase "Zero" AstItemKind.EnumValue ReleaseTag.None)
    (Some (enumMemberDeclaration "Zero" None)).

Definition signEnum : AstItem :=
  AstEnum (sampleBase "Sign" AstItemKind.Enum ReleaseTag.Beta)
    [minusValue; zeroValue].

(** A module variable whose name is not supported. *)
Definition oddVariable : AstItem :=
  AstModuleVariable
    (unsupportedBase "odd-name" AstItemKind.ModuleVariable ReleaseTag.Public)
    "number" "1".

(** A getter and a setter for one property. *)
Definition sizeGetter : AstItem :=
  AstProperty (sampleBase "size" AstItemKind.Property ReleaseTag.Public)
    publicMember "number" None
    {| Declaration.kind := SyntaxKind.GetAccessor;
       Declaration.tokens := ["get"; "size"; "("; ")"] |}.

Definition sizeSetter : AstItem :=
  AstProperty (sampleBase "size" AstItemKind.Property ReleaseTag.Public)
    publicMember "number" None
    {| Declaration.kind := SyntaxKind.SetAccessor;
       Declaration.tokens := ["set"; "size"; "("; "v"; ")"] |}.

Definition samplePackage : AstItem :=
  AstPackage (sampleBase "example" AstItemKind.Package ReleaseTag.None)
    [hiddenClass; signEnum; widgetClass; oddVariable].

(** A process in which nothing was written or loaded yet, a validator that
    accepts every object, and one that rejects every object. *)
Definition freshProcess : Process unit :=
  {| files := ∅; console := []; _methodCounter := 0; _jsonSchema := None |}.

Definition acceptAll (_ : unit) (_ : Obj) : option IJsonSchemaErrorInfo :=
  None.

Definition rejectAll (_ : unit) (_ : Obj) : option IJsonSchemaErrorInfo :=
  Some {| details := "#/exports: unexpected shape" |}.

Definition lastSegment (path : string) : string :=
  if String.eqb path "dist/example.api.json" then "example.api.json"
  else path.

Definition sampleStringify (o : Obj) : string :=
  pretty (length o) +:+ " top-level keys".

Definition lineFeed : string := String (Ascii.ascii_of_nat 10) "".

Definition sampleWrite
    (validate : unit -> Obj -> option IJsonSchemaErrorInfo)
    (w : Process unit) : WriteResult unit :=
  writeJsonFile sampleKinds unit lineFeed "/lib/generators" String.append
    lastSegment (fun _ => tt) sampleStringify validate
    newApiJsonGenerator "dist/example.api.json"
    {| package := samplePackage |} w.

(** ** Separable visits *)

(** A visit of [astItem] settles on [astItem'], [emit] and [count] when it
    leaves the item as [astItem'], the container as [emit] of what it was
    and the counter as [count] of what it was, and a visit of [astItem']
    does exactly the same. *)
Definition settles (conv : AstItemKind.t -> string)
    (astItem astItem' : AstItem) (emit : Obj -> Obj) (count : Z -> Z)
  : Prop :=
  (forall o c, visit conv astItem o c = (astItem', emit o, count c))
  /\ (forall o c, visit conv astItem' o c = (astItem', emit o, count c)).

Definition settlesEach (conv : AstItemKind.t -> string)
    (items items' : list AstItem) (emit : Obj -> Obj) (count : Z -> Z)
  : Prop :=
  (forall o c, visitEach (visit conv) items o c = (items', emit o, count c))
  /\ (forall o c,
        visitEach (visit conv) items' o c = (items', emit o, count c)).

(** The fields that [visitApiParam] writes, when it writes. *)
Definition paramWrite (p : AstParameter.t) (o : Obj) : Obj :=
  if AstParameter.supportedName p then setParamFields p o else o.

(** What the parameter loop does to the object documented as [k]. *)
Fixpoint paramsWrite (params : list AstParameter.t) (k : string) (o : Obj)
  : Obj :=
  match params with
  | [] => o
  | p :: rest =>
      paramsWrite rest k
        (if String.eqb k (AstParameter.name p) then paramWrite p o else o)
  end.

(** An item base with its [supportedName] flag replaced. *)
Definition withSupportedName (b : AstItemBase) (s : bool) : AstItemBase :=
  {| name := name b; kind := kind b; supportedName := s;
     documentation := documentation b |}.


(** ** What a visit writes *)

(** Whether the visit of an item other than the package writes an entry
    under the name of the item. *)
Definition writesEntry (astItem : AstItem) : bool :=
  itemAdmitted astItem
  && match astItem with
     | AstPackage _ _ => false
     | AstModuleVariable _ _ _ => true
     | AstProperty b _ _ _ d =>
         supportedName b
         && negb (N.eqb (Declaration.kind d) SyntaxKind.SetAccessor)
     | _ => supportedName (itemBase astItem)
     end.

(** The keys of an object after an assignment to [k]. *)
Definition addKey (keys : list string) (k : string) : list string :=
  if existsb (String.eqb k) keys then keys else keys ++ [k].

(** The last parameter named [k] whose name is supported. *)
Fixpoint lastWriter (params : list AstParameter.t) (k : string)
  : option AstParameter.t :=
  match params with
  | [] => None
  | p :: rest =>
      match lastWriter rest k with
      | Some q => Some q
      | None =>
          if String.eqb k (AstParameter.name p)
             && AstParameter.supportedName p
          then Some p
          else None
      end
  end.

(** The declaration tree with every [documentation.parameters] emptied. *)
Fixpoint forgetParameters (astItem : AstItem) : AstItem :=
  match astItem with
  | AstPackage b ms =>
      AstPackage (withParameters b []) (map forgetParameters ms)
  | AstNamespace b ms =>
      AstNamespace (withParameters b []) (map forgetParameters ms)
  | AstStructuredType b e i tp ms =>
      AstStructuredType (withParameters b []) e i tp
        (map forgetParameters ms)
  | AstEnum b ms => AstEnum (withParameters b []) (map forgetParameters ms)
  | AstEnumValue b d => AstEnumValue (withParameters b []) d
  | AstFunction b ps rt => AstFunction (withParameters b []) ps rt
  | AstModuleVariable b t v => AstModuleVariable (withParameters b []) t v
  | AstMethod b m ps rt dl => AstMethod (withParameters b []) m ps rt dl
  | AstProperty b m t ro d => AstProperty (withParameters b []) m t ro d
  | AstMember b m d => AstMember (withParameters b []) m d
  end.

(** ** The [check] action of the command line *)

Module CheckAction.

(** What [run] does to the outside, in order. *)
Inductive Event :=
| ConsoleLog (line : string)
| RushCheck (variant : option string) (printAsJson : bool).

(** A string or [undefined] in a condition. *)
Definition truthy (s : option string) : bool :=
  match s with
  | Some s => negb (String.eqb s "")
  | None => false
  end.

Section Run.

(** [colors.yellow] *)
Variable colors_yellow : string -> string.

Definition variantWarning (variant : string) : string :=
  colors_yellow
    ("Variant '" +:+ variant
     +:+ "' has been installed, but 'rush check' is currently checking the default variant. "
     +:+ "Use 'rush check --variant '" +:+ variant
     +:+ "' to check the current installation.").

(** [run()], with the value of the [--variant] parameter, the value of the
    [--json] flag and [rushConfiguration.currentInstalledVariant]; the
    promise it returns is resolved. *)
Definition run (_variant : option string) (_jsonFlag : bool)
    (currentInstalledVariant : option string) : list Event :=
  let variant := currentInstalledVariant in
  let warning :=
    if negb (truthy _variant) && truthy variant then
      match variant with
      | Some v => [ConsoleLog (variantWarning v)]
      | None => []
      end
    else [] in
  warning ++ [RushCheck _variant _jsonFlag].

End Run.

End CheckAction.

(** A plain member that has the name of [renderMethod]. *)
Definition indexSignatureNamedRender : AstItem :=
  AstMember (sampleBase "render" AstItemKind.Property ReleaseTag.None)
    publicMember
    {| Declaration.kind := 153; Declaration.tokens := ["["; "key"; "]"] |}.

(** A package tagged [@internal]. *)
Definition internalPackage : AstItem :=
  AstPackage (sampleBase "example" AstItemKind.Package ReleaseTag.Internal)
    [widgetClass].

(** A class whose members are all rejected, and a class without members. *)
Definition sealedClass : AstItem :=
  AstStructuredType (sampleBase "Sealed" AstItemKind.Class ReleaseTag.Public)
    None None None [debugMethod].

Definition emptyClass : AstItem :=
  AstStructuredType (sampleBase "Empty" AstItemKind.Class ReleaseTag.Public)
    None None None [].

Definition isPlainMember (astItem : AstItem) : bool :=
  match astItem with AstMember _ _ _ => true | _ => false end.

(** [area(width, height)] with documentation for [width] only. *)
Definition undocumentedFunction : AstItem :=
  AstFunction
    {| name := "area"; kind := AstItemKind.Function; supportedName := true;
       documentation :=
         sampleDoc ReleaseTag.Public
           [("width", [("name", JString "width")])] |}
    [ {| AstParameter.name := "width"; AstParameter.supportedName := true;
         AstParameter.isOptional := false; AstParameter.isSpread := false;
         AstParameter.type := "number" |};
      {| AstParameter.name := "height"; AstParameter.supportedName := true;
         AstParameter.isOptional := true; AstParameter.isSpread := false;
         AstParameter.type := "number" |} ]
    "number".

(** ** The entry of an item *)








(** * Properties *)

(** ** Objects *)

Lemma obj_get_set_same (o : Obj) (k : string) (v : Json) :
  obj_get (obj_set o k v) k = Some v.
Proof.
  induction o as [|[k' v'] rest IH]; simpl.
  - by rewrite String.eqb_refl.
  - destruct (String.eqb k' k) eqn:E; simpl; rewrite E; [done | exact IH].
Qed.

Lemma obj_get_set_other (o : Obj) (k k' : string) (v : Json) :
  k <> k' -> obj_get (obj_set o k v) k' = obj_get o k'.
Proof.
  intros Hne. induction o as [|[k0 v0] rest IH]; simpl.
  - destruct (String.eqb_spec k k'); [done | reflexivity].
  - destruct (String.eqb_spec k0 k) as [->|Hk]; simpl.
    + destruct (String.eqb_spec k k'); [done | reflexivity].
    + rewrite IH. reflexivity.
Qed.

(** ** The stability filter *)

Lemma visit_unfold conv (astItem : AstItem) (refObject : Obj) (c : Z) :
  visit conv astItem refObject c =
  if itemAdmitted astItem
  then AstItemVisitor_visit conv (visit conv) astItem refObject c
  else (astItem, refObject, c).
Proof.
  unfold itemAdmitted.
  destruct astItem; simpl;
    destruct (releaseTag (documentation base)); reflexivity.
Qed.

Lemma visit_rejected conv astItem refObject c :
  itemAdmitted astItem = false ->
  visit conv astItem refObject c = (astItem, refObject, c).
Proof. intros H. by rewrite visit_unfold, H. Qed.

Lemma visit_admitted conv astItem refObject c :
  itemAdmitted astItem = true ->
  visit conv astItem refObject c =
  AstItemVisitor_visit conv (visit conv) astItem refObject c.
Proof. intros H. by rewrite visit_unfold, H. Qed.

Lemma visitEach_cons (v : AstItem -> Obj -> Z -> Visited AstItem)
    m ms refObject c :
  visitEach v (m :: ms) refObject c =
  (visitedItem (v m refObject c)
     :: visitedItem
          (visitEach v ms (visitedObject (v m refObject c))
             (visitedCounter (v m refObject c))),
   visitedObject
     (visitEach v ms (visitedObject (v m refObject c))
        (visitedCounter (v m refObject c))),
   visitedCounter
     (visitEach v ms (visitedObject (v m refObject c))
        (visitedCounter (v m refObject c)))).
Proof.
  unfold visitedItem, visitedObject, visitedCounter. simpl.
  destruct (v m refObject c) as [[m' o1] c1]. simpl.
  destruct (visitEach v ms o1 c1) as [[ms' o2] c2]. reflexivity.
Qed.

Lemma itemAdmitted_redact astItem :
  itemAdmitted astItem = true -> itemAdmitted (redact astItem) = true.
Proof.
  intros H. destruct astItem; simpl; rewrite H; exact H.
Qed.

Lemma visitEach_state_ext (v : AstItem -> Obj -> Z -> Visited AstItem)
    (f : AstItem -> AstItem) (ms : list AstItem) :
  Forall (fun m => forall o c, visitedState (v m o c) = visitedState (v (f m) o c)) ms ->
  forall o c,
    visitedState (visitEach v ms o c) = visitedState (visitEach v (map f ms) o c).
Proof.
  induction 1 as [|m rest Hm _ IH]; intros o c; [reflexivity|].
  change (map f (m :: rest)) with (f m :: map f rest).
  rewrite !visitEach_cons. unfold visitedState in *. simpl.
  specialize (Hm o c). injection Hm as Ho Hc.
  unfold visitedObject, visitedCounter. rewrite <- Ho, <- Hc.
  specialize (IH (v m o c).1.2 (v m o c).2). injection IH as IHo IHc.
  by rewrite IHo, IHc.
Qed.

Lemma redact_unfold (astItem : AstItem) :
  redact astItem =
  if itemAdmitted astItem then
    match astItem with
    | AstPackage b ms => AstPackage b (map redact ms)
    | AstNamespace b ms => AstNamespace b (map redact ms)
    | AstStructuredType b e i tp ms =>
        AstStructuredType b e i tp (map redact ms)
    | AstEnum b ms => AstEnum b (map redact ms)
    | _ => astItem
    end
  else rejectedStub.
Proof. destruct astItem; reflexivity. Qed.

(** The containers agree as soon as their member loops agree. *)
Ltac members_agree H ms ms' :=
  let E := fresh "E" in
  pose proof H as E; unfold visitedState in E;
  match goal with
  | |- context [visitEach ?v ms ?o ?c] =>
      specialize (E o c);
      destruct (visitEach v ms o c) as [[? ?] ?];
      destruct (visitEach v ms' o c) as [[? ?] ?];
      simpl in E; injection E as -> ->; reflexivity
  end.

Lemma visit_redact conv (astItem : AstItem) :
  forall refObject c,
    visitedState (visit conv astItem refObject c) =
    visitedState (visit conv (redact astItem) refObject c).
Proof.
  induction astItem as
    [b ms IH|b ms IH|b e i tp ms IH|b ms IH|b d|b ps rt|b t v
    |b m ps rt dl|b m t ro d|b m d] using AstItem_tree_ind;
    intros o c;
    (match goal with
     | |- visitedState (visit _ ?it _ _) = _ =>
         destruct (itemAdmitted it) eqn:Hadm;
         [ rewrite (visit_admitted _ (redact it))
             by (by apply itemAdmitted_redact);
           rewrite (visit_admitted _ it) by done
         | rewrite (visit_rejected _ it _ _ Hadm) ];
         rewrite (redact_unfold it), Hadm
     end);
    try reflexivity;
    pose proof (visitEach_state_ext (visit conv) redact _ IH) as IH';
    simpl.
  - unfold visitAstPackage, visitedState.
    members_agree IH' ms (map redact ms).
  - unfold visitAstNamespace, visitedState.
    destruct (supportedName b); simpl; [|reflexivity].
    members_agree IH' ms (map redact ms).
  - unfold visitAstStructuredType, visitedState.
    destruct (supportedName b); simpl; [|reflexivity].
    destruct ms as [|m0 ms0]; [reflexivity|].
    change (redact m0 :: map redact ms0)
      with (map redact (m0 :: ms0)) in *.
    members_agree IH' (m0 :: ms0) (map redact (m0 :: ms0)).
  - unfold visitAstEnum, visitedState.
    destruct (supportedName b); simpl; [|reflexivity].
    members_agree IH' ms (map redact ms).
Qed.

(** ** Writing through the documented parameters *)

Lemma hasField_set_same o k v : hasField (obj_set o k v) k = true.
Proof. unfold hasField. by rewrite obj_get_set_same. Qed.

Lemma hasField_set_other o k k' v :
  hasField o k' = true -> hasField (obj_set o k v) k' = true.
Proof.
  unfold hasField. destruct (String.eqb_spec k k') as [->|Hne].
  - by rewrite obj_get_set_same.
  - by rewrite obj_get_set_other.
Qed.

Lemma obj_set_set_same o k a b :
  obj_set (obj_set o k a) k b = obj_set o k b.
Proof.
  induction o as [|[k0 v0] rest IH]; simpl.
  - by rewrite String.eqb_refl.
  - destruct (String.eqb k0 k) eqn:E; simpl; rewrite E; [done|].
    by rewrite IH.
Qed.

Lemma obj_set_set_swap o k k' a b :
  k <> k' -> hasField o k' = true ->
  obj_set (obj_set o k a) k' b = obj_set (obj_set o k' b) k a.
Proof.
  intros Hne. unfold hasField.
  induction o as [|[k0 v0] rest IH]; simpl; [done|].
  destruct (String.eqb k0 k) eqn:Ek; destruct (String.eqb k0 k') eqn:Ek';
    simpl; rewrite ?Ek, ?Ek'; try done.
  - apply String.eqb_eq in Ek, Ek'. congruence.
  - intros H. by rewrite IH.
Qed.

Lemma setParamFields_overwrites p q o :
  setParamFields q (setParamFields p o) = setParamFields q o.
Proof.
  unfold setParamFields.
  set (O := "isOptional"). set (S := "isSpread"). set (T := "type").
  assert (HOS : O <> S) by done. assert (HOT : O <> T) by done.
  assert (HST : S <> T) by done.
  rewrite (obj_set_set_swap _ T O) by
    (try done; apply hasField_set_other, hasField_set_same).
  rewrite (obj_set_set_swap _ S O) by (try done; apply hasField_set_same).
  rewrite obj_set_set_same.
  rewrite (obj_set_set_swap _ T S) by (try done; apply hasField_set_same).
  by rewrite !obj_set_set_same.
Qed.

Lemma throughEntry_visitApiParam p (ps : list (string * Obj)) :
  throughEntry (AstParameter.name p) (visitApiParam p) ps =
  map (fun e : string * Obj =>
         (e.1, if String.eqb e.1 (AstParameter.name p)
               then paramWrite p e.2 else e.2)) ps.
Proof.
  unfold throughEntry. apply map_ext. intros [k o]. simpl.
  unfold visitApiParam, paramWrite.
  destruct (String.eqb k (AstParameter.name p)); [|reflexivity].
  by destruct (AstParameter.supportedName p).
Qed.

Lemma visitApiParams_pointwise params (ps : list (string * Obj)) :
  visitApiParams params ps =
  map (fun e : string * Obj => (e.1, paramsWrite params e.1 e.2)) ps.
Proof.
  revert ps. induction params as [|p rest IH]; intros ps; simpl.
  - rewrite <- (map_id ps) at 1. apply map_ext. by intros [k o].
  - rewrite IH, throughEntry_visitApiParam, map_map. reflexivity.
Qed.

(** The loop either leaves an object alone or leaves it as the last write
    to it does. *)
Lemma paramsWrite_shape params k :
  (forall o, paramsWrite params k o = o)
  \/ (exists q, forall o, paramsWrite params k o = setParamFields q o).
Proof.
  induction params as [|p rest IH]; simpl; [by left|].
  destruct IH as [Hid|[q Hq]].
  - destruct (String.eqb k (AstParameter.name p)); [|by left].
    unfold paramWrite. destruct (AstParameter.supportedName p).
    + right. exists p. intros o. by rewrite Hid.
    + left. intros o. by rewrite Hid.
  - right. exists q. intros o. rewrite Hq.
    destruct (String.eqb k (AstParameter.name p)); [|done].
    unfold paramWrite. destruct (AstParameter.supportedName p); [|done].
    apply setParamFields_overwrites.
Qed.

Lemma paramsWrite_idempotent params k o :
  paramsWrite params k (paramsWrite params k o) = paramsWrite params k o.
Proof.
  destruct (paramsWrite_shape params k) as [Hid|[q Hq]].
  - by rewrite !Hid.
  - rewrite !Hq. apply setParamFields_overwrites.
Qed.

Lemma visitApiParams_idempotent params (ps : list (string * Obj)) :
  visitApiParams params (visitApiParams params ps) = visitApiParams params ps.
Proof.
  rewrite !visitApiParams_pointwise, map_map. apply map_ext.
  intros [k o]. simpl. by rewrite paramsWrite_idempotent.
Qed.

(** ** Every visit is separable and repeatable *)

Lemma settlesEach_members conv (ms : list AstItem) :
  Forall (fun m => exists m' emit count, settles conv m m' emit count) ms ->
  exists ms' emit count,
    settlesEach conv ms ms' emit count /\ length ms' = length ms.
Proof.
  induction 1 as [|m rest (m' & e1 & c1 & H1 & H2) _
                    (ms' & e2 & c2 & [H3 H4] & Hlen)].
  - exists [], (fun o => o), (fun c => c). by repeat split.
  - exists (m' :: ms'), (fun o => e2 (e1 o)), (fun c => c2 (c1 c)).
    repeat split; intros; simpl; rewrite ?H1, ?H2, ?H3, ?H4, ?Hlen; done.
Qed.

Lemma settles_rejected conv astItem :
  itemAdmitted astItem = false ->
  settles conv astItem astItem (fun o => o) (fun c => c).
Proof. intros H. split; intros o c; by rewrite visit_rejected. Qed.

Lemma settles_unchanged conv astItem emit count :
  (forall o c, visit conv astItem o c = (astItem, emit o, count c)) ->
  settles conv astItem astItem emit count.
Proof. intros H. by split. Qed.

Lemma withParameters_twice b ps ps' :
  withParameters (withParameters b ps) ps' = withParameters b ps'.
Proof. reflexivity. Qed.

Lemma visit_settles conv (astItem : AstItem) :
  exists astItem' emit count, settles conv astItem astItem' emit count.
Proof.
  induction astItem as
    [b ms IH|b ms IH|b e i tp ms IH|b ms IH|b d|b ps rt|b t v
    |b m ps rt dl|b m t ro d|b m d] using AstItem_tree_ind;
    (match goal with
     | |- exists _ _ _, settles _ ?it _ _ _ =>
         destruct (itemAdmitted it) eqn:Hadm;
         [|eexists _, _, _; by apply settles_rejected]
     end);
    try (apply settlesEach_members in IH;
         destruct IH as (ms' & emit & count & [H1 H2] & Hlen)).
  - (* package *)
    eexists (AstPackage b ms'),
      (fun o =>
         obj_set (obj_set (obj_set (obj_set o "kind" _) "summary" _)
                    "remarks" _) _EXPORTS_KEY _),
      (fun c => count c).
    split; intros o c; rewrite visit_admitted by done; simpl;
      unfold visitAstPackage; rewrite ?H1, ?H2; reflexivity.
  - (* namespace *)
    destruct (supportedName b) eqn:Hs.
    + eexists (AstNamespace b ms'),
        (fun o => obj_set o (name b) (JObject _)), (fun c => count c).
      split; intros o c; rewrite visit_admitted by done; simpl;
        unfold visitAstNamespace; rewrite Hs, ?H1, ?H2; reflexivity.
    + eexists _, (fun o => o), (fun c => c). apply settles_unchanged.
      intros o c. rewrite visit_admitted by done. simpl.
      unfold visitAstNamespace. by rewrite Hs.
  - (* structured type *)
    destruct (supportedName b) eqn:Hs.
    + destruct ms as [|m0 ms0].
      * eexists _, (fun o => obj_set o (name b) (JObject _)), (fun _ => 0%Z).
        apply settles_unchanged.
        intros o c. rewrite visit_admitted by done. simpl.
        unfold visitAstStructuredType. rewrite Hs. reflexivity.
      * destruct ms' as [|m0' ms0']; [done|].
        eexists (AstStructuredType b e i tp (m0' :: ms0')),
          (fun o => obj_set o (name b) (JObject _)), (fun _ => count 0%Z).
        split; intros o c; rewrite visit_admitted by done; simpl;
          unfold visitAstStructuredType; rewrite Hs, ?H1, ?H2; reflexivity.
    + eexists _, (fun o => o), (fun c => c). apply settles_unchanged.
      intros o c. rewrite visit_admitted by done. simpl.
      unfold visitAstStructuredType. by rewrite Hs.
  - (* enum *)
    destruct (supportedName b) eqn:Hs.
    + eexists (AstEnum b ms'),
        (fun o => obj_set o (name b) (JObject _)), (fun c => count c).
      split; intros o c; rewrite visit_admitted by done; simpl;
        unfold visitAstEnum; rewrite Hs, ?H1, ?H2; reflexivity.
    + eexists _, (fun o => o), (fun c => c). apply settles_unchanged.
      intros o c. rewrite visit_admitted by done. simpl.
      unfold visitAstEnum. by rewrite Hs.
  - (* enum value *)
    destruct (supportedName b) eqn:Hs;
      [eexists _, (fun o => obj_set o (name b) (JObject _)), (fun c => c)
      |eexists _, (fun o => o), (fun c => c)];
      apply settles_unchanged; intros o c;
      rewrite visit_admitted by done; simpl;
      unfold visitAstEnumValue; rewrite Hs; reflexivity.
  - (* function *)
    destruct (supportedName b) eqn:Hs.
    + eexists
        (AstFunction
           (withParameters b
              (visitApiParams ps (parameters (documentation b)))) ps rt),
        (fun o => obj_set o (name b) (JObject _)), (fun c => c).
      split; intros o c; rewrite visit_admitted by done; simpl;
        unfold visitAstFunction; simpl; rewrite Hs; simpl;
        rewrite ?visitApiParams_idempotent; reflexivity.
    + eexists _, (fun o => o), (fun c => c). apply settles_unchanged.
      intros o c. rewrite visit_admitted by done. simpl.
      unfold visitAstFunction. by rewrite Hs.
  - (* module variable *)
    eexists _, (fun o => obj_set o (name b) (JObject _)), (fun c => c).
    apply settles_unchanged. intros o c.
    rewrite visit_admitted by done. reflexivity.
  - (* method *)
    destruct (supportedName b) eqn:Hs.
    + eexists
        (AstMethod
           (withParameters b
              (visitApiParams ps (parameters (documentation b)))) m ps rt dl),
        (fun o => obj_set o (name b) (JObject _)), (fun c => c).
      split; intros o c; rewrite visit_admitted by done; simpl;
        unfold visitAstMethod; simpl; rewrite Hs; simpl;
        rewrite ?visitApiParams_idempotent; reflexivity.
    + eexists _, (fun o => o), (fun c => c). apply settles_unchanged.
      intros o c. rewrite visit_admitted by done. simpl.
      unfold visitAstMethod. by rewrite Hs.
  - (* property *)
    destruct (supportedName b) eqn:Hs;
      [destruct (N.eqb (Declaration.kind d) SyntaxKind.SetAccessor) eqn:Hk;
       [eexists _, (fun o => o), (fun c => c)
       |eexists _, (fun o => obj_set o (name b) (JObject _)), (fun c => c)]
      |eexists _, (fun o => o), (fun c => c)];
      apply settles_unchanged; intros o c;
      rewrite visit_admitted by done; simpl;
      unfold visitAstProperty; rewrite Hs, ?Hk; reflexivity.
  - (* member *)
    destruct (supportedName b) eqn:Hs;
      [eexists _, (fun o => obj_set o (name b) _), (fun c => c)
      |eexists _, (fun o => o), (fun c => c)];
      apply settles_unchanged; intros o c;
      rewrite visit_admitted by done; simpl;
      unfold visitAstMember; rewrite Hs; reflexivity.
Qed.

(** ** C1: the stability filter *)

(** C1. A visit of an item tagged [Alpha] or [Internal] changes nothing: it
    returns the item, the container and the counter as they were, whatever
    the item contains, so neither the item nor any of its members is
    projected.  A visit of an item tagged [None], [Beta] or [Public] is the
    dispatch to the projector of its class.  For the whole tree: the
    container and the counter that a visit leaves are those it leaves for
    the redacted tree, in which every rejected item is replaced, with its
    members, by a nameless stub. *)
Theorem C1_stability_filter conv (astItem : AstItem) (refObject : Obj)
    (c : Z) :
  (releaseTag (documentation (itemBase astItem)) = ReleaseTag.Alpha
   \/ releaseTag (documentation (itemBase astItem)) = ReleaseTag.Internal ->
   visit conv astItem refObject c = (astItem, refObject, c))
  /\ (releaseTag (documentation (itemBase astItem)) = ReleaseTag.None
      \/ releaseTag (documentation (itemBase astItem)) = ReleaseTag.Beta
      \/ releaseTag (documentation (itemBase astItem)) = ReleaseTag.Public ->
      visit conv astItem refObject c =
      AstItemVisitor_visit conv (visit conv) astItem refObject c)
  /\ visitedState (visit conv astItem refObject c) =
     visitedState (visit conv (redact astItem) refObject c).
Proof.
  split; [|split].
  - intros H. apply visit_rejected. unfold itemAdmitted.
    by destruct H as [-> | ->].
  - intros H. apply visit_admitted. unfold itemAdmitted.
    by destruct H as [-> | [-> | ->]].
  - apply visit_redact.
Qed.

Lemma C1_stability_filter_witness :
  visit sampleKinds hiddenClass [] 0 = (hiddenClass, [], 0%Z)
  /\ visit sampleKinds widgetClass [] 0 =
     AstItemVisitor_visit sampleKinds (visit sampleKinds) widgetClass [] 0.
Proof.
  split.
  - apply (proj1 (C1_stability_filter sampleKinds hiddenClass [] 0)).
    right. reflexivity.
  - apply (proj1 (proj2 (C1_stability_filter sampleKinds widgetClass [] 0))).
    right. right. reflexivity.
Defined.

(** ** The write operation *)

Section WriteJsonFileProperties.

Variable conv : AstItemKind.t -> string.
Variable JsonSchema : Type.
Variable os_EOL __dirname : string.
Variable path_join : string -> string -> string.
Variable path_basename : string -> string.
Variable JsonSchema_fromFile : string -> JsonSchema.
Variable JsonFile_stringify : Obj -> string.
Variable JsonSchema_validate :
  JsonSchema -> Obj -> option IJsonSchemaErrorInfo.

Local Abbreviation write :=
  (writeJsonFile conv JsonSchema os_EOL __dirname path_join path_basename
     JsonSchema_fromFile JsonFile_stringify JsonSchema_validate).

Local Abbreviation schemaOf :=
  (schemaInUse JsonSchema __dirname path_join JsonSchema_fromFile).

Lemma writeJsonFile_run this reportFilename ex (w : Process JsonSchema) :
  let r := write this reportFilename ex w in
  let v := visit conv (package ex) (jsonOutput this) (_methodCounter w) in
  jsonOutput (generator r) = visitedObject v
  /\ package (extractor r) = visitedItem v
  /\ files (process r) =
     <[reportFilename := JsonFile_stringify (visitedObject v)]> (files w)
  /\ _jsonSchema (process r) = Some (schemaOf w)
  /\ match JsonSchema_validate (schemaOf w) (visitedObject v) with
     | None =>
         completion r = Returns /\ console (process r) = console w
     | Some errorInfo =>
         completion r =
           Throws (path_basename reportFilename
                   +:+ " does not conform to the expected schema -- please report this API Extractor bug:"
                   +:+ os_EOL +:+ details errorInfo)
         /\ console (process r) =
            console w ++
            [os_EOL +:+ "ERROR: "
             +:+ (path_basename reportFilename
                  +:+ " does not conform to the expected schema -- please report this API Extractor bug:"
                  +:+ os_EOL +:+ details errorInfo)
             +:+ os_EOL +:+ os_EOL]
     end.
Proof.
  unfold writeJsonFile, schemaInUse, jsonSchema, visitedObject, visitedItem.
  destruct (visit conv (package ex) (jsonOutput this) (_methodCounter w))
    as [[package' jsonOutput'] counter'].
  simpl. destruct (_jsonSchema w) as [schema|]; simpl;
    match goal with
    | |- context [JsonSchema_validate ?s ?o] =>
        destruct (JsonSchema_validate s o) as [errorInfo|]
    end; simpl; repeat split; reflexivity.
Qed.

(** C2. Two writes of one declaration tree by fresh generators leave the
    same document, whatever the processes they run in (their files, console,
    [_methodCounter] and cached schema) and whatever the report file; so
    does a second write in the process, and on the tree, that the first one
    left behind (the first write has written through
    [documentation.parameters]).  The text saved under the report name is
    the text of that one document. *)
Theorem C2_determinism (tree : AstItem) (f1 f2 f3 : string)
    (w1 w2 : Process JsonSchema) :
  let r1 := write newApiJsonGenerator f1 {| package := tree |} w1 in
  let r2 := write newApiJsonGenerator f2 {| package := tree |} w2 in
  let r3 := write newApiJsonGenerator f3 (extractor r1) (process r1) in
  jsonOutput (generator r2) = jsonOutput (generator r1)
  /\ jsonOutput (generator r3) = jsonOutput (generator r1)
  /\ extractor r3 = extractor r1
  /\ files (process r1) !! f1
     = Some (JsonFile_stringify (jsonOutput (generator r1)))
  /\ files (process r2) !! f2
     = Some (JsonFile_stringify (jsonOutput (generator r1)))
  /\ files (process r3) !! f3
     = Some (JsonFile_stringify (jsonOutput (generator r1))).
Proof.
  intros r1 r2 r3.
  destruct (visit_settles conv tree) as (tree' & emit & count & H1 & H2).
  destruct (writeJsonFile_run newApiJsonGenerator f1 {| package := tree |} w1)
    as (O1 & P1 & F1 & _).
  destruct (writeJsonFile_run newApiJsonGenerator f2 {| package := tree |} w2)
    as (O2 & P2 & F2 & _).
  destruct (writeJsonFile_run newApiJsonGenerator f3 (extractor r1)
              (process r1)) as (O3 & P3 & F3 & _).
  fold r1 in O1, P1, F1, P3, O3, F3. fold r2 in O2, P2, F2. fold r3 in O3, P3, F3.
  simpl in O1, P1, F1, O2, P2, F2.
  rewrite H1 in O1, P1, F1, O2, P2, F2.
  unfold visitedObject, visitedItem in *. simpl in *.
  rewrite P1, H2 in O3, P3, F3. simpl in *.
  assert (E3 : extractor r3 = extractor r1).
  { destruct (extractor r3), (extractor r1). simpl in *. congruence. }
  rewrite O1, O2, O3, F1, F2, F3, !lookup_insert_eq. done.
Qed.

(** C9. [writeJsonFile] completes in one of two ways.  When the validator
    accepts the assembled document it returns and nothing is printed.  When
    the validator reports an error the call throws, and the message is the
    base name of the report file, a fixed sentence, a line end, and the
    details that the validator reported; the same message is printed. *)
Theorem C9_failure_surface this reportFilename ex (w : Process JsonSchema) :
  let r := write this reportFilename ex w in
  let document :=
    visitedObject
      (visit conv (package ex) (jsonOutput this) (_methodCounter w)) in
  (completion r = Returns \/ exists message, completion r = Throws message)
  /\ (JsonSchema_validate (schemaOf w) document = None ->
      completion r = Returns /\ console (process r) = console w)
  /\ (forall errorInfo,
        JsonSchema_validate (schemaOf w) document = Some errorInfo ->
        completion r =
          Throws (path_basename reportFilename
                  +:+ " does not conform to the expected schema -- please report this API Extractor bug:"
                  +:+ os_EOL +:+ details errorInfo)
        /\ exists line, console (process r) = console w ++ [line]).
Proof.
  intros r document.
  destruct (writeJsonFile_run this reportFilename ex w)
    as (_ & _ & _ & _ & H).
  fold r document in H.
  destruct (JsonSchema_validate (schemaOf w) document) as [errorInfo|].
  - destruct H as [Hc Hl].
    split; [right; eauto|]. split; [done|].
    intros ? [= <-]. split; [exact Hc | eauto].
  - destruct H as [Hc Hl].
    split; [by left|]. split; [done|]. done.
Qed.

(** C10. The document is saved before it is validated: when the validator
    reports an error and [writeJsonFile] throws, the report file already
    holds the text of the document that failed validation. *)
Theorem C10_saved_before_validation this reportFilename ex
    (w : Process JsonSchema) errorInfo :
  let r := write this reportFilename ex w in
  let document :=
    visitedObject
      (visit conv (package ex) (jsonOutput this) (_methodCounter w)) in
  JsonSchema_validate (schemaOf w) document = Some errorInfo ->
  (exists message, completion r = Throws message)
  /\ files (process r) !! reportFilename
     = Some (JsonFile_stringify document)
  /\ jsonOutput (generator r) = document.
Proof.
  intros r document Hv.
  destruct (writeJsonFile_run this reportFilename ex w)
    as (Ho & _ & Hf & _ & H).
  fold r document in H, Ho, Hf. rewrite Hv in H. destruct H as [Hc _].
  split; [eauto|]. split; [|done].
  by rewrite Hf, lookup_insert_eq.
Qed.

End WriteJsonFileProperties.

(** ** C8: the name filter *)

Lemma dispatch_unsupported conv v (astItem : AstItem) (o : Obj) (c : Z) :
  supportedName (itemBase astItem) = false ->
  isPackage astItem = false ->
  isModuleVariable astItem = false ->
  AstItemVisitor_visit conv v astItem o c = (astItem, o, c).
Proof.
  intros Hs Hp Hm. destruct astItem; simpl in *; try discriminate;
    unfold visitAstStructuredType, visitAstEnum, visitAstEnumValue,
      visitAstFunction, visitAstNamespace, visitAstMember, visitAstProperty,
      visitAstMethod;
    by rewrite Hs.
Qed.


(** C8. A projector other than those of the package and of the module
    variable returns without writing when [supportedName] is false, and so
    does [visitApiParam].  The projectors of the package and of the module
    variable never read [supportedName]: whatever the flag is, the package
    projector writes [kind], [summary], [remarks] and the [exports] that its
    member loop fills, and the module variable projector writes its node
    under the name of the variable. *)
Theorem C8_name_filter conv
    (v : AstItem -> Obj -> Z -> Visited AstItem)
    (astItem : AstItem) (o : Obj) (c : Z) :
  (supportedName (itemBase astItem) = false ->
   isPackage astItem = false ->
   isModuleVariable astItem = false ->
   AstItemVisitor_visit conv v astItem o c = (astItem, o, c))
  /\ (forall p r,
        AstParameter.supportedName p = false -> visitApiParam p r = r)
  /\ (forall b ms s s',
        visitedState (visitAstPackage conv v (withSupportedName b s) ms o c) =
        visitedState (visitAstPackage conv v (withSupportedName b s') ms o c))
  /\ (forall b t val s s',
        visitedState
          (visitAstModuleVariable conv (withSupportedName b s) t val o c) =
        visitedState
          (visitAstModuleVariable conv (withSupportedName b s') t val o c))
  /\ (forall b t val,
        hasField
          (visitedObject (visitAstModuleVariable conv b t val o c))
          (name b) = true)
  /\ (forall b ms,
        obj_get (visitedObject (visitAstPackage conv v b ms o c)) "kind"
        = Some (JString (conv (kind b)))
        /\ obj_get (visitedObject (visitAstPackage conv v b ms o c))
             "summary"
           = Some (optArrayJson (summary (documentation b)))
        /\ obj_get (visitedObject (visitAstPackage conv v b ms o c))
             "remarks"
           = Some (optArrayJson (remarks (documentation b)))
        /\ obj_get (visitedObject (visitAstPackage conv v b ms o c))
             "exports"
           = Some (JObject (visitedObject (visitEach v ms [] c))))
  /\ (forall b t val,
        obj_get (visitedObject (visitAstModuleVariable conv b t val o c))
          (name b)
        = Some
            (JObject
               [ ("kind", JString (conv (kind b)));
                 ("type", JString t);
                 ("value", JString val);
                 ("deprecatedMessage",
                   orEmptyArray (deprecatedMessage (documentation b)));
                 ("summary", orEmptyArray (summary (documentation b)));
                 ("remarks", orEmptyArray (remarks (documentation b)));
                 ("isBeta", isBetaJson b) ])).
Proof.
  split; [apply dispatch_unsupported|].
  split; [intros p r H; unfold visitApiParam; by rewrite H|].
  split.
  { intros b ms s s'. unfold visitAstPackage, visitedState. simpl.
    by destruct (visitEach v ms [] c) as [[? ?] ?]. }
  split; [reflexivity|].
  split; [intros b t val; apply hasField_set_same|].
  split.
  - intros b ms. unfold visitAstPackage, visitedObject.
    destruct (visitEach v ms [] c) as [[ms' node] c']. cbn [fst snd].
    split; [rewrite !obj_get_set_other by done; apply obj_get_set_same|].
    split; [rewrite !obj_get_set_other by done; apply obj_get_set_same|].
    split; [rewrite !obj_get_set_other by done; apply obj_get_set_same|].
    apply obj_get_set_same.
  - intros b t val. apply obj_get_set_same.
Qed.

Lemma C8_name_filter_witness :
  AstItemVisitor_visit sampleKinds (visit sampleKinds)
    (AstEnumValue
       (unsupportedBase "odd-name" AstItemKind.EnumValue ReleaseTag.Public)
       None) [] 0
  = (AstEnumValue
       (unsupportedBase "odd-name" AstItemKind.EnumValue ReleaseTag.Public)
       None, [], 0%Z)
  /\ obj_get
       (visitedObject
          (visitAstPackage sampleKinds (visit sampleKinds)
             (unsupportedBase "example" AstItemKind.Package ReleaseTag.None)
             [oddVariable] [] 0))
       "kind" = Some (JString "package")
  /\ hasField
       (visitedObject
          (visitAstModuleVariable sampleKinds
             (unsupportedBase "odd-name" AstItemKind.ModuleVariable
                ReleaseTag.Public) "number" "1" [] 0))
       "odd-name" = true.
Proof.
  split; [|split].
  - apply (proj1 (C8_name_filter sampleKinds (visit sampleKinds)
                    (AstEnumValue
                       (unsupportedBase "odd-name" AstItemKind.EnumValue
                          ReleaseTag.Public) None) [] 0));
      reflexivity.
  - apply (proj1 (proj2 (proj2 (proj2 (proj2 (proj2
             (C8_name_filter sampleKinds (visit sampleKinds)
                oddVariable [] 0))))))
             (unsupportedBase "example" AstItemKind.Package ReleaseTag.None)
             [oddVariable]).
  - apply (proj1 (proj2 (proj2 (proj2 (proj2
             (C8_name_filter sampleKinds (visit sampleKinds)
                oddVariable [] 0)))))).
Defined.

(** ** C6: constructors *)

(** C6. An admitted method with a supported name gets one entry under its
    name.  When the name is [__constructor] the entry's kind is the
    constructor discriminator and the entry has none of [accessModifier],
    [isStatic], [isOptional], [returnValue], [isBeta]; for any other name
    the kind is that of the item and the entry has all five. *)
Theorem C6_constructor_fields conv (b : AstItemBase) (m : AstMemberBase)
    (ps : list AstParameter.t) (rt dl : string) (o : Obj) (c : Z) :
  itemAdmitted (AstMethod b m ps rt dl) = true ->
  supportedName b = true ->
  exists node,
    obj_get (visitedObject (visit conv (AstMethod b m ps rt dl) o c)) (name b)
    = Some (JObject node)
    /\ hasField node "kind" = true
    /\ if String.eqb (name b) "__constructor" then
         obj_get node "kind"
         = Some (JString (conv AstItemKind.Constructor))
         /\ hasField node "accessModifier" = false
         /\ hasField node "isStatic" = false
         /\ hasField node "isOptional" = false
         /\ hasField node "returnValue" = false
         /\ hasField node "isBeta" = false
       else
         obj_get node "kind" = Some (JString (conv (kind b)))
         /\ hasField node "accessModifier" = true
         /\ hasField node "isStatic" = true
         /\ hasField node "isOptional" = true
         /\ hasField node "returnValue" = true
         /\ hasField node "isBeta" = true.
Proof.
  intros Hadm Hs. rewrite visit_admitted by done. simpl.
  unfold visitAstMethod, visitedObject. rewrite Hs. simpl.
  eexists. split; [apply obj_get_set_same|].
  destruct (String.eqb (name b) "__constructor");
    repeat split; reflexivity.
Qed.

Lemma C6_constructor_fields_witness :
  exists node,
    obj_get (visitedObject (visit sampleKinds constructorMethod [] 0))
      "__constructor" = Some (JObject node)
    /\ hasField node "kind" = true
    /\ obj_get node "kind" = Some (JString "constructor")
    /\ hasField node "accessModifier" = false
    /\ hasField node "isStatic" = false
    /\ hasField node "isOptional" = false
    /\ hasField node "returnValue" = false
    /\ hasField node "isBeta" = false.
Proof.
  apply (C6_constructor_fields sampleKinds
           (sampleBase "__constructor" AstItemKind.Method ReleaseTag.None)
           publicMember [] "" "constructor();" [] 0);
    reflexivity.
Defined.

(** ** C5: accessor pairs *)

Lemma countKey_cons k k' v (o : Obj) :
  countKey ((k', v) :: o) k =
  (if String.eqb k k' then S (countKey o k) else countKey o k).
Proof. unfold countKey. simpl. by destruct (String.eqb k k'). Qed.

Lemma countKey_absent (o : Obj) k :
  k ∉ obj_keys o -> countKey o k = 0.
Proof.
  induction o as [|[k' v] rest IH]; [done|].
  rewrite countKey_cons. simpl. intros Hnotin.
  apply not_elem_of_cons in Hnotin as [Hne Hrest].
  destruct (String.eqb_spec k k'); [done|]. by apply IH.
Qed.

Lemma countKey_set (o : Obj) k v :
  NoDup (obj_keys o) -> countKey (obj_set o k v) k = 1.
Proof.
  induction o as [|[k' v'] rest IH]; simpl; intros Hnd.
  - rewrite countKey_cons, String.eqb_refl. reflexivity.
  - apply NoDup_cons in Hnd as [Hnotin Hnd].
    destruct (String.eqb_spec k' k) as [->|Hne].
    + rewrite countKey_cons, String.eqb_refl.
      by rewrite countKey_absent.
    + rewrite countKey_cons.
      destruct (String.eqb_spec k k'); [congruence|]. by apply IH.
Qed.

Lemma obj_keys_set_absent (o : Obj) k v k' :
  k' ∈ obj_keys (obj_set o k v) -> k' = k \/ k' ∈ obj_keys o.
Proof.
  induction o as [|[k0 v0] rest IH]; simpl.
  - intros H. apply list_elem_of_singleton in H. by left.
  - destruct (String.eqb k0 k); simpl; intros H;
      apply elem_of_cons in H as [->|H]; try (right; by left).
    + right. by right.
    + destruct (IH H) as [->|Hin]; [by left|]. right. by right.
Qed.

(** Assignments keep the keys of an object distinct. *)
Lemma obj_set_NoDup (o : Obj) k v :
  NoDup (obj_keys o) -> NoDup (obj_keys (obj_set o k v)).
Proof.
  induction o as [|[k0 v0] rest IH]; simpl; intros Hnd.
  - apply NoDup_singleton.
  - apply NoDup_cons in Hnd as [Hnotin Hnd].
    destruct (String.eqb_spec k0 k) as [->|Hne]; simpl.
    + by apply NoDup_cons.
    + apply NoDup_cons. split; [|by apply IH].
      intros Hin. apply obj_keys_set_absent in Hin as [->|Hin]; done.
Qed.

(** C5. For a getter-declared and a setter-declared property of one name,
    both admitted: the visit of the setter writes nothing; the visit of the
    getter writes the property node under the name; and after both visits,
    in either order, a container whose keys were distinct holds exactly one
    entry of that name, the getter's. *)
Theorem C5_setter_suppression conv (bg bs : AstItemBase)
    (mg ms : AstMemberBase) (tg ts : string) (rg rs : option bool)
    (dg ds : Declaration.t) (o : Obj) (c : Z) :
  let getter := AstProperty bg mg tg rg dg in
  let setter := AstProperty bs ms ts rs ds in
  name bs = name bg ->
  itemAdmitted getter = true -> itemAdmitted setter = true ->
  supportedName bg = true -> supportedName bs = true ->
  Declaration.kind dg = SyntaxKind.GetAccessor ->
  Declaration.kind ds = SyntaxKind.SetAccessor ->
  NoDup (obj_keys o) ->
  visit conv setter o c = (setter, o, c)
  /\ exists node,
       obj_get node "kind" = Some (JString (conv (kind bg)))
       /\ visitedObject (visit conv getter o c)
          = obj_set o (name bg) (JObject node)
       /\ visitedObject (visitEach (visit conv) [getter; setter] o c)
          = obj_set o (name bg) (JObject node)
       /\ visitedObject (visitEach (visit conv) [setter; getter] o c)
          = obj_set o (name bg) (JObject node)
       /\ countKey (visitedObject (visitEach (visit conv) [getter; setter] o c))
            (name bg) = 1
       /\ countKey (visitedObject (visitEach (visit conv) [setter; getter] o c))
            (name bg) = 1.
Proof.
  intros getter setter Hname Hag Has Hsg Hss Hkg Hks Hnd.
  assert (Hset : forall o' c', visit conv setter o' c' = (setter, o', c')).
  { intros o' c'. rewrite visit_admitted by done. simpl.
    unfold visitAstProperty. by rewrite Hss, Hks. }
  assert (Hget : forall o' c',
            visit conv getter o' c' =
            (getter,
             visitedObject (visitAstProperty conv bg mg tg rg dg o' c'),
             c')).
  { intros o' c'. rewrite visit_admitted by done. simpl.
    unfold visitAstProperty. by rewrite Hsg, Hkg. }
  split; [apply Hset|].
  eexists. split; [|split; [|split; [|split; [|split]]]].
  2: { rewrite Hget. unfold visitedObject, visitAstProperty. simpl.
       rewrite Hsg, Hkg. reflexivity. }
  all: rewrite ?visitEach_cons, ?Hset, ?Hget;
    unfold visitedObject, visitAstProperty; simpl;
    rewrite ?Hset, ?Hget; simpl;
    unfold visitedObject, visitAstProperty; simpl;
    rewrite ?Hsg, ?Hkg; simpl;
    try reflexivity; try (by apply countKey_set).
Qed.

Lemma C5_setter_suppression_witness :
  visit sampleKinds sizeSetter [] 0 = (sizeSetter, [], 0%Z)
  /\ exists node,
       obj_get node "kind" = Some (JString "property")
       /\ visitedObject (visit sampleKinds sizeGetter [] 0)
          = [("size", JObject node)]
       /\ visitedObject
            (visitEach (visit sampleKinds) [sizeGetter; sizeSetter] [] 0)
          = [("size", JObject node)]
       /\ visitedObject
            (visitEach (visit sampleKinds) [sizeSetter; sizeGetter] [] 0)
          = [("size", JObject node)]
       /\ countKey
            (visitedObject
               (visitEach (visit sampleKinds) [sizeGetter; sizeSetter] [] 0))
            "size" = 1
       /\ countKey
            (visitedObject
               (visitEach (visit sampleKinds) [sizeSetter; sizeGetter] [] 0))
            "size" = 1.
Proof.
  apply (C5_setter_suppression sampleKinds
           (sampleBase "size" AstItemKind.Property ReleaseTag.Public)
           (sampleBase "size" AstItemKind.Property ReleaseTag.Public)
           publicMember publicMember "number" "number" None None
           {| Declaration.kind := SyntaxKind.GetAccessor;
              Declaration.tokens := ["get"; "size"; "("; ")"] |}
           {| Declaration.kind := SyntaxKind.SetAccessor;
              Declaration.tokens := ["set"; "size"; "("; "v"; ")"] |}
           [] 0);
    try reflexivity.
  apply NoDup_nil_2.
Defined.

(** ** C7: the value of an enum member *)

Lemma enumValueText_no_initializer (memberName : string) :
  enumValueText (Some (enumMemberDeclaration memberName None)) = "".
Proof. reflexivity. Qed.

Lemma enumValueText_initializer (memberName : string)
    (toks : list string) (tok : string) :
  enumValueText
    (Some (enumMemberDeclaration memberName (Some (toks ++ [tok])))) = tok.
Proof.
  unfold enumValueText, enumMemberDeclaration, Declaration.getLastToken,
    Declaration.getFirstToken. simpl Declaration.tokens.
  change (memberName :: "=" :: toks ++ [tok])
    with ((memberName :: "=" :: toks) ++ [tok]).
  rewrite last_snoc, length_app. simpl.
  replace (length toks + 1) with (S (length toks)) by lia.
  reflexivity.
Qed.

(** C7. The value written for an enum member is the text of the last token
    of its declaration: the empty string without an initializer, the
    initializer's text when the initializer is one token, and only the last
    token of a longer initializer.  For [Minus = -1] the generator writes
    the value [1], while the text of the initializer is [-1]. *)
Theorem C7_enum_value_last_token :
  (forall n, enumValueText (Some (enumMemberDeclaration n None)) = "")
  /\ (forall n tok,
        enumValueText (Some (enumMemberDeclaration n (Some [tok]))) = tok
        /\ initializerText [tok] = tok)
  /\ (forall n toks tok,
        enumValueText (Some (enumMemberDeclaration n (Some (toks ++ [tok]))))
        = tok)
  /\ (exists node,
        visitedObject (visit sampleKinds minusValue [] 0)
        = [("Minus", JObject node)]
        /\ obj_get node "value" = Some (JString "1"))
  /\ initializerText ["-"; "1"] = "-1".
Proof.
  split; [apply enumValueText_no_initializer|].
  split.
  { intros n tok. split; [apply (enumValueText_initializer n [] tok)|].
    unfold initializerText. simpl.
    induction tok as [|a t IH]; [done|].
    change (String a t +:+ "") with (String a (t +:+ "")).
    by rewrite IH. }
  split; [apply enumValueText_initializer|].
  split; [|reflexivity].
  eexists. split; reflexivity.
Qed.

(** ** C4: the plain class member *)

(** C4, as stated, fails: what [visitAstMember] writes under the name of a
    plain class member is a string, not a node with a [kind] field. *)
Lemma C4_counterexample :
  obj_get
    (visitedObject
       (visitAstMember
          (sampleBase "__index" AstItemKind.Property ReleaseTag.None)
          publicMember
          {| Declaration.kind := 153;
             Declaration.tokens := ["["; "key"; "]"] |} [] 0))
    "__index" = Some (JString "apiMember-153")
  /\ ~ (exists fields,
          obj_get (visitedObject (visit sampleKinds indexSignature [] 0))
            "__index" = Some (JObject fields)
          /\ hasField fields "kind" = true).
Proof.
  split; [reflexivity|]. intros (fields & H & _). discriminate H.
Qed.

(** C4, amended. An admitted plain class member with a supported name is
    not a failure: the visit writes under its name the string [apiMember-]
    followed by the number of the declaration's syntax kind, and the loop
    over the members goes on with the members after it. *)
Theorem C4_plain_member_placeholder conv (b : AstItemBase)
    (m : AstMemberBase) (d : Declaration.t) (rest : list AstItem)
    (o : Obj) (c : Z) :
  itemAdmitted (AstMember b m d) = true ->
  supportedName b = true ->
  visit conv (AstMember b m d) o c
  = (AstMember b m d,
     obj_set o (name b)
       (JString ("apiMember-" +:+ pretty (Declaration.kind d))),
     c)
  /\ visitedState (visitEach (visit conv) (AstMember b m d :: rest) o c)
     = visitedState
         (visitEach (visit conv) rest
            (obj_set o (name b)
               (JString ("apiMember-" +:+ pretty (Declaration.kind d))))
            c).
Proof.
  intros Hadm Hs.
  assert (H : visit conv (AstMember b m d) o c
              = (AstMember b m d,
                 obj_set o (name b)
                   (JString ("apiMember-" +:+ pretty (Declaration.kind d))),
                 c)).
  { rewrite visit_admitted by done. simpl. unfold visitAstMember.
    by rewrite Hs. }
  split; [exact H|].
  rewrite visitEach_cons, H. reflexivity.
Qed.

Lemma C4_plain_member_placeholder_witness :
  visit sampleKinds indexSignature [] 0
  = (indexSignature, [("__index", JString "apiMember-153")], 0%Z)
  /\ visitedState
       (visitEach (visit sampleKinds) [indexSignature; renderMethod] [] 0)
     = visitedState
         (visitEach (visit sampleKinds) [renderMethod]
            [("__index", JString "apiMember-153")] 0).
Proof.
  apply (C4_plain_member_placeholder sampleKinds
           (sampleBase "__index" AstItemKind.Property ReleaseTag.None)
           publicMember
           {| Declaration.kind := 153;
              Declaration.tokens := ["["; "key"; "]"] |}
           [renderMethod] [] 0);
    reflexivity.
Defined.

(** ** The published discriminators *)



(** ** Sample runs of the write operation *)

Lemma C9_failure_surface_witness :
  (completion (sampleWrite acceptAll freshProcess) = Returns
   /\ console (process (sampleWrite acceptAll freshProcess)) = [])
  /\ (completion (sampleWrite rejectAll freshProcess)
      = Throws
          ("example.api.json"
           +:+ " does not conform to the expected schema -- please report this API Extractor bug:"
           +:+ lineFeed +:+ "#/exports: unexpected shape")
      /\ exists line,
           console (process (sampleWrite rejectAll freshProcess)) = [line]).
Proof.
  split.
  - apply (proj1 (proj2
             (C9_failure_surface sampleKinds unit lineFeed "/lib/generators"
                String.append lastSegment (fun _ => tt) sampleStringify
                acceptAll newApiJsonGenerator "dist/example.api.json"
                {| package := samplePackage |} freshProcess))).
    reflexivity.
  - apply (proj2 (proj2
             (C9_failure_surface sampleKinds unit lineFeed "/lib/generators"
                String.append lastSegment (fun _ => tt) sampleStringify
                rejectAll newApiJsonGenerator "dist/example.api.json"
                {| package := samplePackage |} freshProcess))
             {| details := "#/exports: unexpected shape" |}).
    reflexivity.
Defined.

Lemma C10_saved_before_validation_witness :
  (exists message,
     completion (sampleWrite rejectAll freshProcess) = Throws message)
  /\ files (process (sampleWrite rejectAll freshProcess))
       !! "dist/example.api.json"
     = Some "4 top-level keys"
  /\ jsonOutput (generator (sampleWrite rejectAll freshProcess))
     = visitedObject (visit sampleKinds samplePackage [] 0).
Proof.
  apply (C10_saved_before_validation sampleKinds unit lineFeed
           "/lib/generators" String.append lastSegment (fun _ => tt)
           sampleStringify rejectAll newApiJsonGenerator
           "dist/example.api.json" {| package := samplePackage |}
           freshProcess {| details := "#/exports: unexpected shape" |}).
  reflexivity.
Defined.

(** * Further properties of the generator *)

(** ** The parameter loop *)

Lemma paramsWrite_lastWriter params k o :
  paramsWrite params k o =
  match lastWriter params k with
  | Some p => setParamFields p o
  | None => o
  end.
Proof.
  revert o. induction params as [|p rest IH]; intros o; [reflexivity|].
  simpl. rewrite IH. unfold paramWrite.
  destruct (lastWriter rest k) as [q|];
    destruct (String.eqb k (AstParameter.name p));
    destruct (AstParameter.supportedName p); simpl;
    try reflexivity.
  apply setParamFields_overwrites.
Qed.

Lemma visitApiParams_lastWriter (params : list AstParameter.t)
    (documented : list (string * Obj)) :
  visitApiParams params documented =
  map (fun e : string * Obj =>
         (e.1,
          match lastWriter params e.1 with
          | Some p => setParamFields p e.2
          | None => e.2
          end)) documented.
Proof.
  rewrite visitApiParams_pointwise. apply map_ext.
  intros [k o]. simpl. by rewrite paramsWrite_lastWriter.
Qed.

Lemma visitApiParams_names (params : list AstParameter.t)
    (documented : list (string * Obj)) :
  map fst (visitApiParams params documented) = map fst documented.
Proof. rewrite visitApiParams_lastWriter, map_map. reflexivity. Qed.

(** X1. The parameter loop changes [documentation.parameters] entry by
    entry: the object documented under a name gets the three fields of the
    last parameter of that name whose name is supported, and stays as it is
    when there is none.  No entry is added for a parameter that is not
    documented, none is removed, and their order is kept. *)
Theorem X1_parameter_loop_last_writer (params : list AstParameter.t)
    (documented : list (string * Obj)) :
  visitApiParams params documented =
  map (fun e : string * Obj =>
         (e.1,
          match lastWriter params e.1 with
          | Some p => setParamFields p e.2
          | None => e.2
          end)) documented
  /\ map fst (visitApiParams params documented) = map fst documented.
Proof.
  split; [apply visitApiParams_lastWriter | apply visitApiParams_names].
Qed.

(** X2. Running the parameter loop again on the documentation it has
    written changes nothing. *)
Theorem X2_parameter_loop_idempotent (params : list AstParameter.t)
    (documented : list (string * Obj)) :
  visitApiParams params (visitApiParams params documented)
  = visitApiParams params documented.
Proof. apply visitApiParams_idempotent. Qed.

Lemma setParamFields_other p o f :
  f <> "isOptional" -> f <> "isSpread" -> f <> "type" ->
  obj_get (setParamFields p o) f = obj_get o f.
Proof.
  intros H1 H2 H3. unfold setParamFields.
  rewrite !obj_get_set_other by done. reflexivity.
Qed.

(** X3. [visitApiParam] on a documented parameter with a supported name
    leaves an object in which [isOptional], [isSpread] and [type] read as
    the parameter has them, and every other field reads as before; on an
    undefined object it does nothing. *)
Theorem X3_visitApiParam_fields (p : AstParameter.t) (o : Obj) :
  AstParameter.supportedName p = true ->
  visitApiParam p None = None
  /\ exists o',
       visitApiParam p (Some o) = Some o'
       /\ obj_get o' "isOptional"
          = Some (JBoolean (AstParameter.isOptional p))
       /\ obj_get o' "isSpread" = Some (JBoolean (AstParameter.isSpread p))
       /\ obj_get o' "type" = Some (JString (AstParameter.type p))
       /\ forall f,
            f <> "isOptional" -> f <> "isSpread" -> f <> "type" ->
            obj_get o' f = obj_get o f.
Proof.
  intros Hs. unfold visitApiParam. rewrite Hs. simpl.
  split; [reflexivity|]. eexists. split; [reflexivity|].
  unfold setParamFields.
  split; [rewrite !obj_get_set_other by done; apply obj_get_set_same|].
  split; [rewrite obj_get_set_other by done; apply obj_get_set_same|].
  split; [apply obj_get_set_same|].
  intros f. apply setParamFields_other.
Qed.

Lemma X3_visitApiParam_fields_witness :
  exists o',
    visitApiParam
      {| AstParameter.name := "x"; AstParameter.supportedName := true;
         AstParameter.isOptional := false; AstParameter.isSpread := false;
         AstParameter.type := "number" |}
      (Some [("name", JString "x")]) = Some o'
    /\ obj_get o' "type" = Some (JString "number")
    /\ obj_get o' "name" = Some (JString "x").
Proof.
  destruct (X3_visitApiParam_fields
              {| AstParameter.name := "x"; AstParameter.supportedName := true;
                 AstParameter.isOptional := false;
                 AstParameter.isSpread := false;
                 AstParameter.type := "number" |}
              [("name", JString "x")] eq_refl)
    as (_ & o' & H & _ & _ & Ht & Hf).
  exists o'. split; [exact H|]. split; [exact Ht|].
  rewrite Hf; done.
Defined.

(** ** One visit, one entry *)

(** A visit of an item other than the package is an assignment to the
    name of the item, or nothing; what is assigned does not depend on the
    container. *)
Lemma visit_entry conv (astItem : AstItem) (c : Z) :
  isPackage astItem = false ->
  exists j, forall o,
    visitedObject (visit conv astItem o c) =
    if writesEntry astItem
    then obj_set o (name (itemBase astItem)) j
    else o.
Proof.
  intros Hp. unfold writesEntry.
  destruct (itemAdmitted astItem) eqn:Hadm; cbn [andb];
    [|exists JUndefined; intros o; by rewrite visit_rejected].
  destruct astItem as
    [b ms|b ms|b e i tp ms|b ms|b d|b ps rt|b t v
    |b m ps rt dl|b m t ro d|b m d]; [discriminate Hp|..];
    cbn [itemBase].
  - destruct (visitEach (visit conv) ms [] c) as [[ms' node] c'] eqn:E.
    eexists. intros o. rewrite visit_admitted by done. simpl.
    unfold visitAstNamespace. destruct (supportedName b); simpl;
      [rewrite E|]; reflexivity.
  - destruct ms as [|m0 ms0].
    + eexists. intros o. rewrite visit_admitted by done. simpl.
      unfold visitAstStructuredType. destruct (supportedName b);
        reflexivity.
    + destruct (visitEach (visit conv) (m0 :: ms0) [] 0%Z)
        as [[ms' node] c'] eqn:E.
      eexists. intros o. rewrite visit_admitted by done. simpl.
      unfold visitAstStructuredType. destruct (supportedName b); simpl;
        [simpl in E; rewrite E|]; reflexivity.
  - destruct (visitEach (visit conv) ms [] c) as [[ms' node] c'] eqn:E.
    eexists. intros o. rewrite visit_admitted by done. simpl.
    unfold visitAstEnum. destruct (supportedName b); simpl;
      [rewrite E|]; reflexivity.
  - eexists. intros o. rewrite visit_admitted by done. simpl.
    unfold visitAstEnumValue. destruct (supportedName b); reflexivity.
  - eexists. intros o. rewrite visit_admitted by done. simpl.
    unfold visitAstFunction. destruct (supportedName b); reflexivity.
  - eexists. intros o. rewrite visit_admitted by done. reflexivity.
  - eexists. intros o. rewrite visit_admitted by done. simpl.
    unfold visitAstMethod. destruct (supportedName b); reflexivity.
  - destruct (supportedName b) eqn:Hs;
      destruct (N.eqb (Declaration.kind d) SyntaxKind.SetAccessor) eqn:Hk;
      eexists; intros o; rewrite visit_admitted by done; simpl;
      unfold visitAstProperty; rewrite Hs, ?Hk; simpl; try reflexivity.
    Unshelve. all: exact JUndefined.
  - eexists. intros o. rewrite visit_admitted by done. simpl.
    unfold visitAstMember. destruct (supportedName b); reflexivity.
Qed.

Lemma obj_keys_set (o : Obj) k v :
  obj_keys (obj_set o k v) = addKey (obj_keys o) k.
Proof.
  unfold addKey. induction o as [|[k' v'] rest IH]; simpl; [reflexivity|].
  rewrite (String.eqb_sym k k').
  destruct (String.eqb k' k); simpl; [reflexivity|].
  rewrite IH. by destruct (existsb (String.eqb k) (obj_keys rest)).
Qed.

(** X4. A visit of an item other than the package touches one entry of the
    container at most, the one under the item's own name: every entry under
    another name reads as before, the keys are those of an assignment to
    that name when the item writes and the same keys when it does not, and
    keys that were distinct stay distinct. *)
Theorem X4_visit_touches_own_name conv (astItem : AstItem) (o : Obj)
    (c : Z) :
  isPackage astItem = false ->
  (forall k,
     k <> name (itemBase astItem) ->
     obj_get (visitedObject (visit conv astItem o c)) k = obj_get o k)
  /\ obj_keys (visitedObject (visit conv astItem o c))
     = (if writesEntry astItem
        then addKey (obj_keys o) (name (itemBase astItem))
        else obj_keys o)
  /\ (NoDup (obj_keys o) ->
      NoDup (obj_keys (visitedObject (visit conv astItem o c)))).
Proof.
  intros Hp. destruct (visit_entry conv astItem c Hp) as [j Hj].
  rewrite Hj. destruct (writesEntry astItem).
  - split; [intros k Hk; by apply obj_get_set_other|].
    split; [apply obj_keys_set | apply obj_set_NoDup].
  - by repeat split.
Qed.

Lemma X4_visit_touches_own_name_witness :
  obj_get
    (visitedObject
       (visit sampleKinds widgetClass [("Other", JString "kept")] 0))
    "Other" = Some (JString "kept").
Proof.
  apply (proj1 (X4_visit_touches_own_name sampleKinds widgetClass
                  [("Other", JString "kept")] 0 eq_refl)).
  discriminate.
Defined.

Lemma members_keys conv (ms : list AstItem) (o : Obj) (c : Z) :
  forallb (fun m => negb (isPackage m)) ms = true ->
  obj_keys (visitedObject (visitEach (visit conv) ms o c))
  = foldl addKey (obj_keys o)
      (map (fun m => name (itemBase m)) (List.filter writesEntry ms)).
Proof.
  revert o c. induction ms as [|m rest IH]; intros o c Hp; [reflexivity|].
  simpl in Hp. apply andb_true_iff in Hp as [Hm Hrest].
  apply negb_true_iff in Hm.
  rewrite visitEach_cons. unfold visitedObject at 1. simpl.
  rewrite IH by done.
  destruct (visit_entry conv m c Hm) as [j Hj].
  rewrite Hj.
  destruct (writesEntry m); simpl; [by rewrite obj_keys_set | reflexivity].
Qed.

(** X5. After the loop over a list of members none of which is a package,
    the keys of the container are its keys before, followed by the names of
    the members that write an entry, in the order of the list, each name
    once. *)
Theorem X5_member_order conv (ms : list AstItem) (o : Obj) (c : Z) :
  forallb (fun m => negb (isPackage m)) ms = true ->
  obj_keys (visitedObject (visitEach (visit conv) ms o c))
  = foldl addKey (obj_keys o)
      (map (fun m => name (itemBase m)) (List.filter writesEntry ms)).
Proof. apply members_keys. Qed.

Lemma X5_member_order_witness :
  obj_keys
    (visitedObject
       (visitEach (visit sampleKinds)
          [debugMethod; renderMethod; sizeSetter; sizeGetter; renderMethod]
          [] 0))
  = ["render"; "size"].
Proof.
  apply (X5_member_order sampleKinds
           [debugMethod; renderMethod; sizeSetter; sizeGetter; renderMethod]
           [] 0).
  reflexivity.
Defined.

(** X6. When two members other than the package have one name and the
    second writes an entry, the container after both visits is the
    container after the second visit alone: the later declaration replaces
    the earlier one. *)
Theorem X6_same_name_last_wins conv (first second : AstItem) (o : Obj)
    (c : Z) :
  isPackage first = false -> isPackage second = false ->
  name (itemBase first) = name (itemBase second) ->
  writesEntry second = true ->
  visitedObject (visitEach (visit conv) [first; second] o c)
  = visitedObject (visit conv second o c).
Proof.
  intros Hp1 Hp2 Hname Hw.
  destruct (visit_settles conv second) as (s' & emit & count & Hs & _).
  destruct (visit_entry conv first c Hp1) as [j1 H1].
  destruct (visit_entry conv second c Hp2) as [j2 H2].
  rewrite Hw in H2.
  assert (Hemit : forall o', emit o' = obj_set o' (name (itemBase second)) j2).
  { intros o'. rewrite <- H2, Hs. reflexivity. }
  rewrite !visitEach_cons. unfold visitedObject at 1. simpl.
  rewrite !Hs. unfold visitedObject at 1 2 4. simpl.
  rewrite !Hemit, H1.
  destruct (writesEntry first); [|reflexivity].
  rewrite Hname. apply obj_set_set_same.
Qed.

Lemma X6_same_name_last_wins_witness :
  visitedObject
    (visitEach (visit sampleKinds) [indexSignatureNamedRender; renderMethod]
       [] 0)
  = visitedObject (visit sampleKinds renderMethod [] 0).
Proof.
  apply (X6_same_name_last_wins sampleKinds indexSignatureNamedRender
           renderMethod [] 0); reflexivity.
Defined.

(** ** What a visit leaves of the counter and of the tree *)

Lemma visitEach_counter conv (ms : list AstItem) :
  Forall
    (fun m => forall o c,
       visitedCounter (visit conv m o c) = c
       \/ visitedCounter (visit conv m o c) = 0%Z) ms ->
  forall o c,
    visitedCounter (visitEach (visit conv) ms o c) = c
    \/ visitedCounter (visitEach (visit conv) ms o c) = 0%Z.
Proof.
  induction 1 as [|m rest Hm _ IH]; intros o c; [by left|].
  rewrite visitEach_cons. unfold visitedCounter at 1 3. simpl.
  destruct (IH (visitedObject (visit conv m o c))
              (visitedCounter (visit conv m o c))) as [E|E];
    rewrite E; [apply Hm | by right].
Qed.

Lemma visit_counter conv (astItem : AstItem) :
  forall o c,
    visitedCounter (visit conv astItem o c) = c
    \/ visitedCounter (visit conv astItem o c) = 0%Z.
Proof.
  induction astItem as
    [b ms IH|b ms IH|b e i tp ms IH|b ms IH|b d|b ps rt|b t v
    |b m ps rt dl|b m t ro d|b m d] using AstItem_tree_ind;
    intros o c; rewrite visit_unfold;
    (match goal with
     | |- context [itemAdmitted ?it] => destruct (itemAdmitted it)
     end; [|by left]);
    try (pose proof (visitEach_counter conv _ IH) as Hms);
    simpl.
  - unfold visitAstPackage. specialize (Hms [] c).
    by destruct (visitEach (visit conv) ms [] c) as [[? ?] ?].
  - unfold visitAstNamespace. destruct (supportedName b); [|by left].
    specialize (Hms [] c). simpl.
    by destruct (visitEach (visit conv) ms [] c) as [[? ?] ?].
  - unfold visitAstStructuredType. destruct (supportedName b); [|by left].
    destruct ms as [|m0 ms0]; [by right|].
    specialize (Hms [] 0%Z). cbv beta iota.
    destruct (visitEach (visit conv) (m0 :: ms0) [] 0%Z) as [[? ?] ?].
    unfold visitedCounter in *. cbn [negb snd] in *. right. by destruct Hms.
  - unfold visitAstEnum. destruct (supportedName b); [|by left].
    specialize (Hms [] c).
    by destruct (visitEach (visit conv) ms [] c) as [[? ?] ?].
  - unfold visitAstEnumValue. destruct (supportedName b); by left.
  - unfold visitAstFunction. destruct (supportedName b); by left.
  - by left.
  - unfold visitAstMethod. destruct (supportedName b); by left.
  - unfold visitAstProperty. destruct (supportedName b); [|by left].
    destruct (N.eqb (Declaration.kind d) SyntaxKind.SetAccessor); by left.
  - unfold visitAstMember. destruct (supportedName b); by left.
Qed.

(** X7. The generator never raises [_methodCounter]: after a visit the
    counter holds the value it had before or 0, and after a visit of an
    admitted structured type with a supported name it holds 0. *)
Theorem X7_method_counter_only_reset conv (astItem : AstItem) (o : Obj)
    (c : Z) :
  (visitedCounter (visit conv astItem o c) = c
   \/ visitedCounter (visit conv astItem o c) = 0%Z)
  /\ (forall b e i tp ms,
        astItem = AstStructuredType b e i tp ms ->
        itemAdmitted astItem = true ->
        supportedName b = true ->
        visitedCounter (visit conv astItem o c) = 0%Z).
Proof.
  split; [apply visit_counter|].
  intros b e i tp ms -> Hadm Hs. rewrite visit_admitted by done. simpl.
  unfold visitAstStructuredType. rewrite Hs. simpl.
  destruct ms as [|m0 ms0]; [reflexivity|].
  assert (Hms : visitedCounter (visitEach (visit conv) (m0 :: ms0) [] 0%Z)
                = 0%Z).
  { destruct (visitEach_counter conv (m0 :: ms0)) with (o := @nil (string * Json))
      (c := 0%Z) as [E|E]; try exact E.
    apply Forall_forall. intros m _. apply visit_counter. }
  cbv beta iota.
  by destruct (visitEach (visit conv) (m0 :: ms0) [] 0%Z) as [[? ?] ?].
Qed.

Lemma X7_method_counter_only_reset_witness :
  visitedCounter (visit sampleKinds widgetClass [] 7) = 0%Z.
Proof.
  apply (proj2 (X7_method_counter_only_reset sampleKinds widgetClass [] 7)
           (sampleBase "Widget" AstItemKind.Class ReleaseTag.Public)
           None None None [debugMethod; indexSignature; renderMethod]);
    reflexivity.
Defined.

Lemma visitEach_forgetParameters conv (ms : list AstItem) :
  Forall
    (fun m => forall o c,
       forgetParameters (visitedItem (visit conv m o c))
       = forgetParameters m) ms ->
  forall o c,
    map forgetParameters (visitedItem (visitEach (visit conv) ms o c))
    = map forgetParameters ms.
Proof.
  induction 1 as [|m rest Hm _ IH]; intros o c; [reflexivity|].
  rewrite visitEach_cons. unfold visitedItem at 1. simpl.
  by rewrite Hm, IH.
Qed.

(** X8. The only thing a visit writes to the declaration tree is
    [documentation.parameters]: with the documented parameters put aside,
    the tree after the visit is the tree before it. *)
Theorem X8_tree_kept_but_parameters conv (astItem : AstItem) :
  forall o c,
    forgetParameters (visitedItem (visit conv astItem o c))
    = forgetParameters astItem.
Proof.
  induction astItem as
    [b ms IH|b ms IH|b e i tp ms IH|b ms IH|b d|b ps rt|b t v
    |b m ps rt dl|b m t ro d|b m d] using AstItem_tree_ind;
    intros o c; rewrite visit_unfold;
    (match goal with
     | |- context [itemAdmitted ?it] => destruct (itemAdmitted it)
     end; [|reflexivity]);
    try (pose proof (visitEach_forgetParameters conv _ IH) as Hms);
    simpl.
  - unfold visitAstPackage. specialize (Hms [] c).
    destruct (visitEach (visit conv) ms [] c) as [[? ?] ?].
    unfold visitedItem in *. simpl in *. by rewrite Hms.
  - unfold visitAstNamespace. destruct (supportedName b); [|reflexivity].
    specialize (Hms [] c).
    destruct (visitEach (visit conv) ms [] c) as [[? ?] ?].
    unfold visitedItem in *. simpl in *. by rewrite Hms.
  - unfold visitAstStructuredType.
    destruct (supportedName b); [|reflexivity].
    destruct ms as [|m0 ms0]; [reflexivity|].
    specialize (Hms [] 0%Z). cbv beta iota.
    destruct (visitEach (visit conv) (m0 :: ms0) [] 0%Z) as [[? ?] ?].
    unfold visitedItem in *. cbn [negb fst] in *. cbn [forgetParameters].
    by rewrite Hms.
  - unfold visitAstEnum. destruct (supportedName b); [|reflexivity].
    specialize (Hms [] c).
    destruct (visitEach (visit conv) ms [] c) as [[? ?] ?].
    unfold visitedItem in *. simpl in *. by rewrite Hms.
  - unfold visitAstEnumValue. by destruct (supportedName b).
  - unfold visitAstFunction. by destruct (supportedName b).
  - reflexivity.
  - unfold visitAstMethod. by destruct (supportedName b).
  - unfold visitAstProperty. destruct (supportedName b); [|reflexivity].
    by destruct (N.eqb (Declaration.kind d) SyntaxKind.SetAccessor).
  - unfold visitAstMember. by destruct (supportedName b).
Qed.

(** ** Visiting into a container that was visited into *)

Lemma obj_set_get_same (o : Obj) k v :
  obj_get o k = Some v -> obj_set o k v = o.
Proof.
  induction o as [|[k' v'] rest IH]; simpl; [done|].
  destruct (String.eqb k' k); [by intros [= ->]|].
  intros H. by rewrite IH.
Qed.

Lemma visit_package_entry conv b ms c :
  itemAdmitted (AstPackage b ms) = true ->
  exists j, forall o,
    visitedObject (visit conv (AstPackage b ms) o c) =
    obj_set
      (obj_set
         (obj_set (obj_set o "kind" (JString (conv (kind b))))
            "summary" (optArrayJson (summary (documentation b))))
         "remarks" (optArrayJson (remarks (documentation b))))
      "exports" j.
Proof.
  intros Hadm.
  destruct (visitEach (visit conv) ms [] c) as [[ms' node] c'] eqn:E.
  eexists. intros o. rewrite visit_admitted by done. simpl.
  unfold visitAstPackage. rewrite E. reflexivity.
Qed.

Lemma visit_again_same_container conv (astItem : AstItem) (o : Obj)
    (c c' : Z) :
  visit conv (visitedItem (visit conv astItem o c))
    (visitedObject (visit conv astItem o c)) c'
  = (visitedItem (visit conv astItem o c),
     visitedObject (visit conv astItem o c),
     visitedCounter (visit conv astItem o c')).
Proof.
  destruct (visit_settles conv astItem) as (t' & emit & count & H1 & H2).
  rewrite !H1. unfold visitedItem, visitedObject, visitedCounter. simpl.
  rewrite H2. f_equal. f_equal.
  destruct (isPackage astItem) eqn:Hp.
  - destruct astItem as [b ms| | | | | | | | |]; try discriminate Hp.
    destruct (itemAdmitted (AstPackage b ms)) eqn:Hadm.
    + destruct (visit_package_entry conv b ms c Hadm) as [j Hj].
      assert (He : forall o', emit o' =
        obj_set
          (obj_set
             (obj_set (obj_set o' "kind" (JString (conv (kind b))))
                "summary" (optArrayJson (summary (documentation b))))
             "remarks" (optArrayJson (remarks (documentation b))))
          "exports" j).
      { intros o'. rewrite <- Hj, H1. reflexivity. }
      assert (Hk : obj_get (emit o) "kind" = Some (JString (conv (kind b))))
        by (rewrite (He o), !obj_get_set_other by done;
            apply obj_get_set_same).
      assert (Hsu : obj_get (emit o) "summary"
                    = Some (optArrayJson (summary (documentation b))))
        by (rewrite (He o), !obj_get_set_other by done;
            apply obj_get_set_same).
      assert (Hr : obj_get (emit o) "remarks"
                   = Some (optArrayJson (remarks (documentation b))))
        by (rewrite (He o), !obj_get_set_other by done;
            apply obj_get_set_same).
      assert (Hx : obj_get (emit o) "exports" = Some j)
        by (rewrite (He o); apply obj_get_set_same).
      rewrite (He (emit o)).
      rewrite (obj_set_get_same _ _ _ Hk), (obj_set_get_same _ _ _ Hsu),
        (obj_set_get_same _ _ _ Hr).
      by apply obj_set_get_same.
    + assert (He : forall o', emit o' = o').
      { intros o'. pose proof (H1 o' c) as E.
        rewrite visit_rejected in E by done. congruence. }
      by rewrite !He.
  - destruct (visit_entry conv astItem c Hp) as [j Hj].
    assert (He : forall o', emit o' =
      if writesEntry astItem
      then obj_set o' (name (itemBase astItem)) j else o').
    { intros o'. rewrite <- Hj, H1. reflexivity. }
    rewrite !He. destruct (writesEntry astItem); [|reflexivity].
    apply obj_set_set_same.
Qed.

Section WriteJsonFileFurther.

Variable conv : AstItemKind.t -> string.
Variable JsonSchema : Type.
Variable os_EOL __dirname : string.
Variable path_join : string -> string -> string.
Variable path_basename : string -> string.
Variable JsonSchema_fromFile : string -> JsonSchema.
Variable JsonFile_stringify : Obj -> string.
Variable JsonSchema_validate :
  JsonSchema -> Obj -> option IJsonSchemaErrorInfo.

Local Abbreviation write :=
  (writeJsonFile conv JsonSchema os_EOL __dirname path_join path_basename
     JsonSchema_fromFile JsonFile_stringify JsonSchema_validate).

Local Abbreviation schemaOf :=
  (schemaInUse JsonSchema __dirname path_join JsonSchema_fromFile).

Local Abbreviation getSchema :=
  (jsonSchema JsonSchema __dirname path_join JsonSchema_fromFile).

Local Abbreviation run :=
  (writeJsonFile_run conv JsonSchema os_EOL __dirname path_join
     path_basename JsonSchema_fromFile JsonFile_stringify
     JsonSchema_validate).

(** X9. A second [writeJsonFile] on the same generator, in the process and
    on the tree that the first one left, leaves the same document in
    [jsonOutput] and the same tree, and saves the text of that document. *)
Theorem X9_write_again_same_generator this (f1 f2 : string) ex
    (w : Process JsonSchema) :
  let r1 := write this f1 ex w in
  let r2 := write (generator r1) f2 (extractor r1) (process r1) in
  jsonOutput (generator r2) = jsonOutput (generator r1)
  /\ package (extractor r2) = package (extractor r1)
  /\ files (process r2) !! f2
     = Some (JsonFile_stringify (jsonOutput (generator r1))).
Proof.
  intros r1 r2.
  destruct (run this f1 ex w) as (O1 & P1 & _).
  destruct (run (generator r1) f2 (extractor r1) (process r1))
    as (O2 & P2 & F2 & _).
  fold r1 in O1, P1, O2, P2, F2. fold r2 in O2, P2, F2.
  rewrite O1, P1 in O2, P2, F2.
  rewrite visit_again_same_container in O2, P2, F2.
  unfold visitedObject, visitedItem in *. simpl in *.
  rewrite O2, P2, F2, O1, P1, lookup_insert_eq. done.
Qed.

(** X10. [writeJsonFile] writes no file but the report: every other file
    name reads after the call as it read before. *)
Theorem X10_only_the_report_is_written this (reportFilename other : string)
    ex (w : Process JsonSchema) :
  other <> reportFilename ->
  files (process (write this reportFilename ex w)) !! other
  = files w !! other.
Proof.
  intros Hne. destruct (run this reportFilename ex w) as (_ & _ & F & _).
  rewrite F. by apply lookup_insert_ne.
Qed.

(** X11. The schema is loaded once for a process: reading [jsonSchema]
    again gives the same schema and changes nothing more; after
    [writeJsonFile] the schema is cached, and a later call validates against
    that same schema. *)
Theorem X11_schema_cached (w : Process JsonSchema) this reportFilename ex :
  getSchema (getSchema w).2 = ((getSchema w).1, (getSchema w).2)
  /\ (getSchema w).1 = schemaOf w
  /\ _jsonSchema (process (write this reportFilename ex w))
     = Some (schemaOf w)
  /\ schemaOf (process (write this reportFilename ex w)) = schemaOf w.
Proof.
  destruct (run this reportFilename ex w) as (_ & _ & _ & S & _).
  split; [|split; [|split]].
  - unfold jsonSchema.
    destruct (_jsonSchema w) eqn:E; simpl; rewrite ?E; reflexivity.
  - unfold jsonSchema, schemaInUse. by destruct (_jsonSchema w).
  - exact S.
  - unfold schemaInUse at 1. by rewrite S.
Qed.

(** X12. The release tag filter applies to the package as well: when the
    package is tagged [Alpha] or [Internal], [writeJsonFile] leaves
    [jsonOutput] and the tree as they were and saves the text of that
    untouched object. *)
Theorem X12_rejected_package this reportFilename ex
    (w : Process JsonSchema) :
  itemAdmitted (package ex) = false ->
  jsonOutput (generator (write this reportFilename ex w)) = jsonOutput this
  /\ package (extractor (write this reportFilename ex w)) = package ex
  /\ files (process (write this reportFilename ex w)) !! reportFilename
     = Some (JsonFile_stringify (jsonOutput this)).
Proof.
  intros Hadm.
  destruct (run this reportFilename ex w) as (O & P & F & _).
  rewrite visit_rejected in O, P, F by done.
  rewrite O, P, F, lookup_insert_eq. done.
Qed.

End WriteJsonFileFurther.

Lemma X10_only_the_report_is_written_witness :
  files (process (sampleWrite acceptAll freshProcess)) !! "package.json"
  = None.
Proof.
  apply (X10_only_the_report_is_written sampleKinds unit lineFeed
           "/lib/generators" String.append lastSegment (fun _ => tt)
           sampleStringify acceptAll newApiJsonGenerator
           "dist/example.api.json" "package.json"
           {| package := samplePackage |} freshProcess).
  discriminate.
Defined.

Lemma X12_rejected_package_witness :
  jsonOutput
    (generator
       (writeJsonFile sampleKinds unit lineFeed "/lib/generators"
          String.append lastSegment (fun _ => tt) sampleStringify acceptAll
          newApiJsonGenerator "dist/example.api.json"
          {| package := internalPackage |} freshProcess)) = [].
Proof.
  apply (X12_rejected_package sampleKinds unit lineFeed "/lib/generators"
           String.append lastSegment (fun _ => tt) sampleStringify acceptAll
           newApiJsonGenerator "dist/example.api.json"
           {| package := internalPackage |} freshProcess).
  reflexivity.
Defined.

(** ** Containers of members *)

Lemma visitEach_all_rejected conv (ms : list AstItem) (o : Obj) (c : Z) :
  forallb (fun m => negb (itemAdmitted m)) ms = true ->
  visitEach (visit conv) ms o c = (ms, o, c).
Proof.
  induction ms as [|m rest IH]; intros H; [reflexivity|].
  simpl in H. apply andb_true_iff in H as [Hm Hrest].
  apply negb_true_iff in Hm.
  rewrite visitEach_cons, visit_rejected by done.
  unfold visitedItem, visitedObject, visitedCounter. simpl.
  by rewrite IH.
Qed.

(** X13. The entry of an admitted structured type with a supported name has
    a [members] field exactly when the type has members; when all of them
    are rejected the field is there and holds an empty object.  The entry
    of an enum always has [values] and that of a namespace always has
    [exports], empty when there are no members. *)
Theorem X13_member_containers conv (b : AstItemBase)
    (e i : option string) (tp : option (list string)) (ms : list AstItem)
    (o : Obj) (c : Z) :
  admitted (releaseTag (documentation b)) = true ->
  supportedName b = true ->
  (exists node,
     obj_get
       (visitedObject (visit conv (AstStructuredType b e i tp ms) o c))
       (name b) = Some (JObject node)
     /\ hasField node "members"
        = match ms with [] => false | _ :: _ => true end
     /\ (ms <> [] ->
         forallb (fun m => negb (itemAdmitted m)) ms = true ->
         obj_get node "members" = Some (JObject [])))
  /\ (exists node,
        obj_get (visitedObject (visit conv (AstEnum b ms) o c)) (name b)
        = Some (JObject node)
        /\ hasField node "values" = true
        /\ (ms = [] -> obj_get node "values" = Some (JObject [])))
  /\ (exists node,
        obj_get (visitedObject (visit conv (AstNamespace b ms) o c)) (name b)
        = Some (JObject node)
        /\ hasField node "exports" = true
        /\ (ms = [] -> obj_get node "exports" = Some (JObject []))).
Proof.
  intros Hadm Hs. split; [|split].
  - rewrite visit_admitted by done. simpl.
    unfold visitAstStructuredType. rewrite Hs. cbn [negb].
    destruct ms as [|m0 ms0].
    + eexists. split; [apply obj_get_set_same|].
      split; [reflexivity | done].
    + destruct (visitEach (visit conv) (m0 :: ms0) [] 0%Z)
        as [[ms' node] c'] eqn:E.
      eexists. split; [apply obj_get_set_same|].
      split; [reflexivity|].
      intros _ Hrej. rewrite visitEach_all_rejected in E by done.
      injection E as <- <- <-. reflexivity.
  - rewrite visit_admitted by done. simpl.
    unfold visitAstEnum. rewrite Hs. cbn [negb].
    destruct (visitEach (visit conv) ms [] c) as [[ms' node] c'] eqn:E.
    eexists. split; [apply obj_get_set_same|].
    split; [reflexivity|]. intros ->. simpl in E.
    injection E as <- <- <-. reflexivity.
  - rewrite visit_admitted by done. simpl.
    unfold visitAstNamespace. rewrite Hs. cbn [negb].
    destruct (visitEach (visit conv) ms [] c) as [[ms' node] c'] eqn:E.
    eexists. split; [apply obj_get_set_same|].
    split; [reflexivity|]. intros ->. simpl in E.
    injection E as <- <- <-. reflexivity.
Qed.

Lemma X13_member_containers_witness :
  (exists node,
     obj_get (visitedObject (visit sampleKinds sealedClass [] 0)) "Sealed"
     = Some (JObject node)
     /\ obj_get node "members" = Some (JObject []))
  /\ (exists node,
        obj_get (visitedObject (visit sampleKinds emptyClass [] 0)) "Empty"
        = Some (JObject node)
        /\ hasField node "members" = false).
Proof.
  split.
  - destruct (X13_member_containers sampleKinds
                (sampleBase "Sealed" AstItemKind.Class ReleaseTag.Public)
                None None None [debugMethod] [] 0 eq_refl eq_refl)
      as ((node & Hn & _ & Hm) & _).
    exists node. split; [exact Hn|]. apply Hm; [discriminate|reflexivity].
  - destruct (X13_member_containers sampleKinds
                (sampleBase "Empty" AstItemKind.Class ReleaseTag.Public)
                None None None [] [] 0 eq_refl eq_refl)
      as ((node & Hn & Hf & _) & _).
    exists node. split; [exact Hn | exact Hf].
Defined.

(** ** The documentation fields of an entry *)

(** X14. The object that a visit writes for an item other than the package
    always has [deprecatedMessage], [summary] and [remarks], each the
    documented array or an empty array when there is none, and its
    [isBeta], when it has one, tells whether the release tag is [Beta]. *)
Theorem X14_documentation_fields conv (astItem : AstItem) (o : Obj)
    (c : Z) :
  isPackage astItem = false ->
  isPlainMember astItem = false ->
  writesEntry astItem = true ->
  exists node,
    obj_get (visitedObject (visit conv astItem o c))
      (name (itemBase astItem)) = Some (JObject node)
    /\ obj_get node "deprecatedMessage"
       = Some (orEmptyArray
                 (deprecatedMessage (documentation (itemBase astItem))))
    /\ obj_get node "summary"
       = Some (orEmptyArray (summary (documentation (itemBase astItem))))
    /\ obj_get node "remarks"
       = Some (orEmptyArray (remarks (documentation (itemBase astItem))))
    /\ forall v,
         obj_get node "isBeta" = Some v ->
         v = JBoolean
               (ReleaseTag.eqb
                  (releaseTag (documentation (itemBase astItem)))
                  ReleaseTag.Beta).
Proof.
  intros Hp Hm Hw. unfold writesEntry in Hw.
  apply andb_true_iff in Hw as [Hadm Hw].
  rewrite visit_admitted by done.
  destruct astItem as
    [b ms|b ms|b e i tp ms|b ms|b d|b ps rt|b t v
    |b m ps rt dl|b m t ro d|b m d]; try discriminate;
    cbn [itemBase AstItemVisitor_visit] in *.
  - unfold visitAstNamespace. rewrite Hw. cbn [negb].
    destruct (visitEach (visit conv) ms [] c) as [[ms' node] c'].
    eexists. split; [apply obj_get_set_same|].
    repeat split. by intros v [= <-].
  - unfold visitAstStructuredType. rewrite Hw. cbn [negb].
    destruct ms as [|m0 ms0].
    + eexists. split; [apply obj_get_set_same|].
      repeat split. by intros v [= <-].
    + destruct (visitEach (visit conv) (m0 :: ms0) [] 0%Z)
        as [[ms' node] c'].
      eexists. split; [apply obj_get_set_same|].
      repeat split. by intros v [= <-].
  - unfold visitAstEnum. rewrite Hw. cbn [negb].
    destruct (visitEach (visit conv) ms [] c) as [[ms' node] c'].
    eexists. split; [apply obj_get_set_same|].
    repeat split. by intros v [= <-].
  - unfold visitAstEnumValue. rewrite Hw. cbn [negb].
    eexists. split; [apply obj_get_set_same|].
    repeat split. by intros v [= <-].
  - unfold visitAstFunction. rewrite Hw. cbn [negb].
    eexists. split; [apply obj_get_set_same|].
    repeat split. by intros v [= <-].
  - unfold visitAstModuleVariable.
    eexists. split; [apply obj_get_set_same|].
    repeat split. by intros v0 [= <-].
  - unfold visitAstMethod. rewrite Hw. cbn [negb].
    eexists. split; [apply obj_get_set_same|].
    destruct (String.eqb (name b) "__constructor");
      repeat split; by intros v [= <-].
  - apply andb_true_iff in Hw as [Hs Hk]. apply negb_true_iff in Hk.
    unfold visitAstProperty. rewrite Hs, Hk. cbn [negb].
    eexists. split; [apply obj_get_set_same|].
    repeat split. by intros v [= <-].
Qed.

Lemma X14_documentation_fields_witness :
  exists node,
    obj_get (visitedObject (visit sampleKinds signEnum [] 0)) "Sign"
    = Some (JObject node)
    /\ obj_get node "summary" = Some (JArray [])
    /\ obj_get node "isBeta" = Some (JBoolean true).
Proof.
  destruct (X14_documentation_fields sampleKinds signEnum [] 0
              eq_refl eq_refl eq_refl)
    as (node & Hn & _ & Hs & _ & Hb).
  exists node. split; [exact Hn|]. split; [exact Hs|].
  assert (E : Some (JObject node)
              = obj_get (visitedObject (visit sampleKinds signEnum [] 0))
                  "Sign") by (symmetry; exact Hn).
  vm_compute in E. injection E as ->. reflexivity.
Defined.

(** ** The text of an enum value, for any declaration *)

(** X15. The value of an enum member is empty when the member has no
    declaration or its declaration has at most one token; when the
    declaration has at least two tokens the value is the text of the last
    one. *)
Theorem X15_enum_value_text (d : Declaration.t) :
  enumValueText None = ""
  /\ (length (Declaration.tokens d) <= 1 -> enumValueText (Some d) = "")
  /\ (forall tok,
        2 <= length (Declaration.tokens d) ->
        last (Declaration.tokens d) = Some tok ->
        enumValueText (Some d) = tok).
Proof.
  split; [reflexivity|].
  destruct d as [k toks].
  unfold enumValueText, Declaration.getLastToken, Declaration.getFirstToken.
  cbn [Declaration.tokens]. split.
  - destruct toks as [|t1 [|t2 rest]]; simpl; intros H;
      [reflexivity | reflexivity | lia].
  - intros tok Hlen Hlast. rewrite Hlast.
    destruct toks as [|t1 [|t2 rest]]; simpl in Hlen; try lia.
    reflexivity.
Qed.

Lemma X15_enum_value_text_witness :
  enumValueText
    (Some {| Declaration.kind := SyntaxKind.EnumMember;
             Declaration.tokens := ["Shift"; "="; "1"; "<<"; "2"] |}) = "2".
Proof.
  apply (proj2 (proj2
           (X15_enum_value_text
              {| Declaration.kind := SyntaxKind.EnumMember;
                 Declaration.tokens := ["Shift"; "="; "1"; "<<"; "2"] |})));
    [simpl; lia | reflexivity].
Defined.

(** ** The [check] action *)

(** X16. [run] always ends with one call of [rushCheck], with the value of
    [--variant] and of [--json] as they were given.  Before it, the warning
    about the installed variant is printed exactly when no [--variant] was
    given, or an empty one, and the installed variant is a name that is not
    empty; nothing else is printed. *)
Theorem X16_check_action_run (yellow : string -> string)
    (variantValue : option string) (jsonFlag : bool)
    (installed : option string) :
  (forall v,
     variantValue = None \/ variantValue = Some "" ->
     installed = Some v -> v <> "" ->
     CheckAction.run yellow variantValue jsonFlag installed
     = [CheckAction.ConsoleLog (CheckAction.variantWarning yellow v);
        CheckAction.RushCheck variantValue jsonFlag])
  /\ (forall s,
        variantValue = Some s -> s <> "" ->
        CheckAction.run yellow variantValue jsonFlag installed
        = [CheckAction.RushCheck variantValue jsonFlag])
  /\ (installed = None \/ installed = Some "" ->
      CheckAction.run yellow variantValue jsonFlag installed
      = [CheckAction.RushCheck variantValue jsonFlag]).
Proof.
  unfold CheckAction.run, CheckAction.truthy. split; [|split].
  - intros v Hv -> Hne.
    destruct (String.eqb_spec v ""); [done|].
    by destruct Hv as [-> | ->].
  - intros s -> Hne. by destruct (String.eqb_spec s "").
  - intros [-> | ->]; by destruct variantValue as [s|]; simpl;
      rewrite ?andb_false_r.
Qed.

Lemma X16_check_action_run_witness :
  CheckAction.run (fun s => s) (Some "") true (Some "next")
  = [CheckAction.ConsoleLog
       (CheckAction.variantWarning (fun s => s) "next");
     CheckAction.RushCheck (Some "") true]
  /\ CheckAction.run (fun s => s) (Some "next") false (Some "next")
     = [CheckAction.RushCheck (Some "next") false].
Proof.
  split.
  - apply (proj1 (X16_check_action_run (fun s => s) (Some "") true
                    (Some "next")) "next");
      [by right | reflexivity | discriminate].
  - apply (proj1 (proj2 (X16_check_action_run (fun s => s) (Some "next")
                           false (Some "next"))) "next");
      [reflexivity | discriminate].
Defined.

(** ** The parameters of a function or method entry *)

(** X17. The [parameters] object in the entry of an admitted function or
    method with a supported name has an entry for each documented
    parameter, in the documented order, and for no other: a declared
    parameter without documentation does not appear.  It is the
    [documentation.parameters] that the visit leaves in the tree. *)
Theorem X17_emitted_parameters conv (b : AstItemBase) (m : AstMemberBase)
    (ps : list AstParameter.t) (rt dl : string) (o : Obj) (c : Z) :
  admitted (releaseTag (documentation b)) = true ->
  supportedName b = true ->
  (exists node entries,
     obj_get (visitedObject (visit conv (AstFunction b ps rt) o c)) (name b)
     = Some (JObject node)
     /\ obj_get node "parameters" = Some (JObject entries)
     /\ map fst entries = map fst (parameters (documentation b))
     /\ JObject entries
        = parametersJson
            (parameters
               (documentation
                  (itemBase
                     (visitedItem (visit conv (AstFunction b ps rt) o c))))))
  /\ (exists node entries,
        obj_get (visitedObject (visit conv (AstMethod b m ps rt dl) o c))
          (name b) = Some (JObject node)
        /\ obj_get node "parameters" = Some (JObject entries)
        /\ map fst entries = map fst (parameters (documentation b))
        /\ JObject entries
           = parametersJson
               (parameters
                  (documentation
                     (itemBase
                        (visitedItem
                           (visit conv (AstMethod b m ps rt dl) o c)))))).
Proof.
  intros Hadm Hs.
  assert (Hnames :
    map fst
      (map (fun e : string * Obj => (e.1, JObject e.2))
         (visitApiParams ps (parameters (documentation b))))
    = map fst (parameters (documentation b))).
  { rewrite map_map. simpl. apply visitApiParams_names. }
  split; rewrite visit_admitted by done; simpl.
  - unfold visitAstFunction. rewrite Hs. cbn [negb].
    eexists _, _. split; [apply obj_get_set_same|].
    split; [reflexivity|]. split; [exact Hnames | reflexivity].
  - unfold visitAstMethod. rewrite Hs. cbn [negb].
    eexists _, _. split; [apply obj_get_set_same|].
    split; [|split; [exact Hnames | reflexivity]].
    by destruct (String.eqb (name b) "__constructor").
Qed.

Lemma X17_emitted_parameters_witness :
  exists node entries,
    obj_get
      (visitedObject (visit sampleKinds undocumentedFunction [] 0))
      "area" = Some (JObject node)
    /\ obj_get node "parameters" = Some (JObject entries)
    /\ map fst entries = ["width"].
Proof.
  destruct (X17_emitted_parameters sampleKinds
              {| name := "area"; kind := AstItemKind.Function;
                 supportedName := true;
                 documentation :=
                   sampleDoc ReleaseTag.Public
                     [("width", [("name", JString "width")])] |}
              publicMember
              [ {| AstParameter.name := "width";
                   AstParameter.supportedName := true;
                   AstParameter.isOptional := false;
                   AstParameter.isSpread := false;
                   AstParameter.type := "number" |};
                {| AstParameter.name := "height";
                   AstParameter.supportedName := true;
                   AstParameter.isOptional := true;
                   AstParameter.isSpread := false;
                   AstParameter.type := "number" |} ]
              "number" "" [] 0 eq_refl eq_refl)
    as ((node & entries & Hn & Hp & Hk & _) & _).
  exists node, entries. split; [exact Hn|]. split; [exact Hp | exact Hk].
Defined.

(** ** The document of a package *)

(** X18. The document that an admitted package leaves in an empty
    [jsonOutput] has the four keys [kind], [summary], [remarks] and
    [exports], in that order.  [summary] and [remarks] are passed as they
    are, undefined when the package has none, and [exports] is an object
    whose keys, when no member is a package, are the names of the members
    that write an entry, in the order of the member list. *)
Theorem X18_package_document conv (b : AstItemBase) (ms : list AstItem)
    (c : Z) :
  admitted (releaseTag (documentation b)) = true ->
  exists exports,
    visitedObject (visit conv (AstPackage b ms) [] c)
    = [ ("kind", JString (conv (kind b)));
        ("summary", optArrayJson (summary (documentation b)));
        ("remarks", optArrayJson (remarks (documentation b)));
        ("exports", JObject exports) ]
    /\ (summary (documentation b) = None ->
        optArrayJson (summary (documentation b)) = JUndefined)
    /\ (forallb (fun m => negb (isPackage m)) ms = true ->
        obj_keys exports
        = foldl addKey []
            (map (fun m => name (itemBase m))
               (List.filter writesEntry ms))).
Proof.
  intros Hadm. rewrite visit_admitted by done. simpl.
  unfold visitAstPackage.
  pose proof (members_keys conv ms [] c) as Hk.
  destruct (visitEach (visit conv) ms [] c) as [[ms' node] c'].
  exists node. split; [reflexivity|].
  split; [by intros ->|]. exact Hk.
Qed.

Lemma X18_package_document_witness :
  exists exports,
    visitedObject (visit sampleKinds samplePackage [] 0)
    = [ ("kind", JString "package"); ("summary", JUndefined);
        ("remarks", JUndefined); ("exports", JObject exports) ]
    /\ obj_keys exports = ["Sign"; "Widget"; "odd-name"].
Proof.
  destruct (X18_package_document sampleKinds
              (sampleBase "example" AstItemKind.Package ReleaseTag.None)
              [hiddenClass; signEnum; widgetClass; oddVariable] 0 eq_refl)
    as (exports & Hd & _ & Hk).
  exists exports. split; [exact Hd|]. apply Hk. reflexivity.
Defined.

(** ** C3: what is emitted *)



Lemma writesEntry_not_package (astItem : AstItem) :
  packageFree astItem = true -> isPackage astItem = false.
Proof. by destruct astItem. Qed.








